(** * Romanian parliament scrapers: listing parsers, detail parsers, emitters

    A shallow embedding of [extract-deputies.py], [extract-senators.py],
    [parliament-scraper-selenium.py] and [senators-scraper.py].

    Python [str] values are lists of Unicode code points.  The markup is
    modelled after BeautifulSoup has parsed it: a tree of tags, text nodes
    and comments.  Library functions whose tables are not part of the
    repository ([urljoin], the Unicode decimal-digit class of [\d]) are
    parameters of the sections that use them. *)

From Stdlib Require Import String Ascii.
From Stdlib Require Import List NArith ZArith Bool Lia.
From Stdlib Require Import Permutation Sorted.
Import ListNotations.

Set Implicit Arguments.
Set Warnings "-register-all".

(** ** Python strings *)

Module PyStr.

Definition pystr := list N.

(** An ASCII literal of the source as code points. *)
Fixpoint lit (s : string) : pystr :=
  match s with
  | EmptyString => []
  | String a r => N_of_ascii a :: lit r
  end.

Fixpoint eqb (s t : pystr) : bool :=
  match s, t with
  | [], [] => true
  | a :: s', b :: t' => N.eqb a b && eqb s' t'
  | _, _ => false
  end.

Definition mem (c : N) (cs : pystr) : bool := existsb (N.eqb c) cs.

(** [str.isspace] on one code point: the characters that [str.strip()]
    without argument removes. *)
Definition is_space (c : N) : bool :=
  ((9 <=? c) && (c <=? 13) || (28 <=? c) && (c <=? 32) || (c =? 133)
   || (c =? 160) || (c =? 5760) || (8192 <=? c) && (c <=? 8202)
   || (c =? 8232) || (c =? 8233) || (c =? 8239) || (c =? 8287)
   || (c =? 12288))%N.

Fixpoint drop_while (p : N -> bool) (s : pystr) : pystr :=
  match s with
  | [] => []
  | c :: s' => if p c then drop_while p s' else s
  end.

Fixpoint take_while (p : N -> bool) (s : pystr) : pystr :=
  match s with
  | [] => []
  | c :: s' => if p c then c :: take_while p s' else []
  end.

Definition lstrip_by (p : N -> bool) (s : pystr) : pystr := drop_while p s.
Definition rstrip_by (p : N -> bool) (s : pystr) : pystr :=
  rev (drop_while p (rev s)).
Definition strip_by (p : N -> bool) (s : pystr) : pystr :=
  rstrip_by p (lstrip_by p s).

(** [s.strip()] *)
Definition strip (s : pystr) : pystr := strip_by is_space s.
(** [s.strip(chars)] *)
Definition strip_chars (chars s : pystr) : pystr :=
  strip_by (fun c => mem c chars) s.

(** [s.startswith(pre)], returning the rest of [s] on success. *)
Fixpoint strip_prefix (pre s : pystr) : option pystr :=
  match pre, s with
  | [], _ => Some s
  | a :: pre', b :: s' => if N.eqb a b then strip_prefix pre' s' else None
  | _ :: _, [] => None
  end.

Definition starts_with (pre s : pystr) : bool :=
  match strip_prefix pre s with Some _ => true | None => false end.

(** [sub in s] *)
Fixpoint contains (sub s : pystr) : bool :=
  starts_with sub s ||
  match s with
  | [] => false
  | _ :: s' => contains sub s'
  end.

(** [s.replace(old, new)] for a non-empty [old]: leftmost occurrences,
    not overlapping.  [skip] counts the characters of a matched [old]
    still to be dropped. *)
Fixpoint replace_from (old new : pystr) (skip : nat) (s : pystr) : pystr :=
  match s with
  | [] => []
  | c :: s' =>
      match skip with
      | S k => replace_from old new k s'
      | O =>
          if starts_with old s
          then new ++ replace_from old new (length old - 1) s'
          else c :: replace_from old new 0 s'
      end
  end.

Definition replace (old new s : pystr) : pystr :=
  match old with
  | [] => new ++ flat_map (fun c => c :: new) s
  | _ :: _ => replace_from old new 0 s
  end.

(** [s.split(sep)] for a one-character separator. *)
Fixpoint split_on (sep : N) (s : pystr) : list pystr :=
  match s with
  | [] => [[]]
  | c :: s' =>
      if N.eqb c sep then [] :: split_on sep s'
      else match split_on sep s' with
           | [] => [[c]]
           | w :: ws => (c :: w) :: ws
           end
  end.

(** The [\S+] tokens of a string, as [re.findall] returns them. *)
Fixpoint tokens_from (cur : pystr) (s : pystr) : list pystr :=
  match s with
  | [] => match cur with [] => [] | _ => [rev cur] end
  | c :: s' =>
      if is_space c
      then match cur with
           | [] => tokens_from [] s'
           | _ => rev cur :: tokens_from [] s'
           end
      else tokens_from (c :: cur) s'
  end.

Definition tokens (s : pystr) : list pystr := tokens_from [] s.

End PyStr.

Import PyStr.

(** ** Character normalizer ([fix_romanian_chars]) *)

(** The values the function can be handed: a [str] or something else. *)
Inductive pyval :=
| VStr (s : pystr)
| VNone
| VBool (b : bool)
| VInt (z : Z)
| VBytes (b : list N).

(** The [replacements] dict, in insertion order, which is the order in
    which the loop visits it. *)
Definition replacements : list (pystr * pystr) :=
  [ ([186%N], [537%N]);    (* U+00BA -> s with comma below *)
    ([254%N], [539%N]);    (* U+00FE -> t with comma below *)
    ([222%N], [538%N]);    (* U+00DE -> T with comma below *)
    ([170%N], [536%N]) ].  (* U+00AA -> S with comma below *)

Definition fix_romanian_str (text : pystr) : pystr :=
  fold_left (fun t r => replace (fst r) (snd r) t) replacements text.

Definition fix_romanian_chars (text : pyval) : pyval :=
  match text with
  | VStr s => VStr (fix_romanian_str s)
  | other => other
  end.

Arguments lit s%_string.

(** ** Regular expressions of the source

    Both patterns have the shape [literal(class+)]: [re.search] returns
    the leftmost position where the literal is followed by at least one
    character of the class, and group 1 is the longest run of them. *)

Fixpoint re_search (literal : pystr) (cls : N -> bool) (s : pystr)
  : option pystr :=
  match
    match strip_prefix literal s with
    | Some rest => take_while cls rest
    | None => []
    end
  with
  | (_ :: _) as g => Some g
  | [] =>
      match s with
      | [] => None
      | _ :: s' => re_search literal cls s'
      end
  end.

(** ** Parsed markup *)

Module Soup.

(** A BeautifulSoup node.  [Comment] stands for the [NavigableString]
    subclasses that [get_text] leaves out. *)
Inductive node :=
| Tag (name : pystr) (attrs : list (pystr * pystr)) (contents : list node)
| Text (s : pystr)
| Comment (s : pystr).

(** [tag.descendants]: document order, the tag itself excluded. *)
Fixpoint descendants (n : node) : list node :=
  match n with
  | Tag _ _ cs =>
      (fix go (l : list node) : list node :=
         match l with
         | [] => []
         | c :: l' => c :: descendants c ++ go l'
         end) cs
  | _ => []
  end.

(** Every element of a document, in document order. *)
Definition elements (doc : list node) : list node :=
  flat_map (fun c => c :: descendants c) doc.

Definition is_tag (name : pystr) (n : node) : bool :=
  match n with
  | Tag nm _ _ => PyStr.eqb nm name
  | _ => false
  end.

(** [tag.get(key)] / [tag[key]]: [None] where the subscript raises. *)
Fixpoint get_attr (key : pystr) (attrs : list (pystr * pystr))
  : option pystr :=
  match attrs with
  | [] => None
  | (k, v) :: rest => if PyStr.eqb k key then Some v else get_attr key rest
  end.

Definition attr (key : pystr) (n : node) : option pystr :=
  match n with
  | Tag _ a _ => get_attr key a
  | _ => None
  end.

(** [tag.get(key, '')] *)
Definition attr_or_empty (key : pystr) (n : node) : pystr :=
  match attr key n with Some v => v | None => [] end.

(** [class_=c]: one of the whitespace-separated class names is [c]. *)
Definition has_class (c : pystr) (n : node) : bool :=
  match attr (lit "class") n with
  | Some v => existsb (PyStr.eqb c) (tokens v)
  | None => false
  end.

(** [tag.find_all(name)] and [tag.find(name)] *)
Definition find_all (name : pystr) (n : node) : list node :=
  filter (is_tag name) (descendants n).
Definition find (name : pystr) (n : node) : option node :=
  hd_error (find_all name n).

(** [soup.find_all(name)] *)
Definition soup_find_all (name : pystr) (doc : list node) : list node :=
  filter (is_tag name) (elements doc).

(** [tag.text] *)
Fixpoint get_text (n : node) : pystr :=
  match n with
  | Text s => s
  | Comment _ => []
  | Tag _ _ cs =>
      (fix go (l : list node) : pystr :=
         match l with
         | [] => []
         | c :: l' => get_text c ++ go l'
         end) cs
  end.

(** [tag.string] *)
Fixpoint tag_string (n : node) : option pystr :=
  match n with
  | Text s => Some s
  | Comment s => Some s
  | Tag _ _ [c] => tag_string c
  | Tag _ _ _ => None
  end.

(** [tag.contents] *)
Definition contents (n : node) : list node :=
  match n with
  | Tag _ _ cs => cs
  | _ => []
  end.

(** The elements that follow the first element satisfying [p], in document
    order: what repeated [find_next()] from that element enumerates. *)
Fixpoint after_first (p : node -> bool) (l : list node)
  : option (list node) :=
  match l with
  | [] => None
  | x :: l' => if p x then Some l' else after_first p l'
  end.

End Soup.

Import Soup.

Definition nonempty (A : Type) (l : list A) : bool :=
  match l with [] => false | _ :: _ => true end.

(** ** Events of a run

    What [process_all] does to the outside world, in order. *)
Inductive event :=
| Probe (path : pystr)          (* os.path.exists on a detail file *)
| Fetch (url : pystr)           (* a live request for a detail page *)
| ParseDetail (path : pystr)    (* a detail file handed to the detail parser *)
| OpenCsv                       (* the output file is created *)
| WriteRow (row : list pystr).  (* writer.writerow *)

Definition rows_of (log : list event) : list (list pystr) :=
  flat_map (fun e => match e with WriteRow r => [r] | _ => [] end) log.

Definition opens_csv (log : list event) : bool :=
  existsb (fun e => match e with OpenCsv => true | _ => false end) log.

(** The output file after the run: [None] when it was never created. *)
Definition csv_of (log : list event) : option (list (list pystr)) :=
  if opens_csv log then Some (rows_of log) else None.

(** ** Lower chamber: [ParliamentScraper] *)

Module ParliamentScraper.

(** The dict built for one deputy; [local_file] is the key that
    [download_deputy_pages] adds on success. *)
Record deputy := mk_deputy {
  name : pystr;
  url : pystr;
  id : pystr;
  group : pystr;
  local_file : option pystr
}.

(** One committee dict; [role] is the key added later, when it is. *)
Record committee := mk_committee {
  c_name : pystr;
  c_url : pystr;
  c_role : option pystr
}.

Definition default_base_url : pystr := lit "http://www.cdep.ro".
Definition url_template : pystr :=
  lit "https://cdep.ro/pls/parlam/structura2015.mp?idm=".
Definition deputies_dir : pystr := lit "parliament_data/deputies".

Definition header : list pystr :=
  [lit "Deputy Name"; lit "Deputy URL"; lit "Deputy ID";
   lit "Parliamentary Group"; lit "Committee Name"; lit "Committee URL";
   lit "Role"].

Section Scraper.

(** [\d]: the decimal digits of the Unicode database. *)
Variable is_decimal : N -> bool.
(** [urllib.parse.urljoin]; [None] where it raises. *)
Variable urljoin : pystr -> pystr -> option pystr.
(** Constructor arguments. *)
Variable base_url : pystr.
Variable use_cache : bool.
(** The outside world: [path_exists i p] is [os.path.exists(p)] when the
    i-th deputy is handled, [fetch_ok i u] tells whether the page of the
    i-th deputy loaded (no timeout, no driver error), and [read_page p] is
    the parsed content of a detail file, [None] when reading it raises. *)
Variable path_exists : nat -> pystr -> bool.
Variable fetch_ok : nat -> pystr -> bool.
Variable read_page : pystr -> option (list node).

(** [re.search(r'idm=(\d+)', href)], group 1 *)
Definition id_of_href (href : pystr) : option pystr :=
  re_search (lit "idm=") is_decimal href.

Definition profile_url (deputy_id : pystr) : pystr :=
  url_template ++ deputy_id.

(** The test that picks [target_table]. *)
Definition is_target (table : node) : bool :=
  match find_all (lit "tr") table with
  | _ :: first_row :: _ =>
      let cells := find_all (lit "td") first_row in
      (4 <=? length cells)%nat &&
      match nth_error cells 1 with
      | Some cell =>
          match find (lit "a") cell with
          | Some link => contains (lit "idm=") (attr_or_empty (lit "href") link)
          | None => false
          end
      | None => false
      end
  | _ => false
  end.

(** The outcome of one row of the target table: it raises, it is passed
    over, or it gives a record. *)
Inductive row_result :=
| Raised
| Skipped
| Found (d : deputy).

Definition deputy_of_row (row : node) : row_result :=
  let cols := find_all (lit "td") row in
  if (4 <=? length cols)%nat then
    match nth_error cols 1, nth_error cols 3 with
    | Some c1, Some c3 =>
        match find (lit "a") c1 with
        | Some link =>
            match attr (lit "href") link with
            | None => Raised            (* link['href'] : KeyError *)
            | Some href =>
                match id_of_href href with
                | Some deputy_id =>
                    Found {| name := strip (get_text link);
                             url := profile_url deputy_id;
                             id := deputy_id;
                             group := strip (get_text c3);
                             local_file := None |}
                | None => Skipped
                end
            end
        | None => Skipped
        end
    | _, _ => Skipped
    end
  else Skipped.

(** The loop over the rows; [None] when some row raised. *)
Fixpoint deputies_of_rows (rows : list node) : option (list deputy) :=
  match rows with
  | [] => Some []
  | row :: rest =>
      match deputy_of_row row with
      | Raised => None
      | Skipped => deputies_of_rows rest
      | Found d =>
          match deputies_of_rows rest with
          | Some ds => Some (d :: ds)
          | None => None
          end
      end
  end.

(** [extract_deputies_from_file], from the parsed listing on.  The
    [except] clause around the whole body turns a raise into [[]].  The
    write of [deputies_info.json] is left out. *)
Definition extract_deputies_from_file (doc : list node) : list deputy :=
  match List.find is_target (soup_find_all (lit "table") doc) with
  | None => []
  | Some target_table =>
      match deputies_of_rows (tl (find_all (lit "tr") target_table)) with
      | Some deputies => deputies
      | None => []
      end
  end.

Definition filepath_of (d : deputy) : pystr :=
  deputies_dir ++ lit "/" ++ lit "deputy_" ++ id d ++ lit "_"
    ++ replace (lit " ") (lit "_") (name d) ++ lit ".html".

Definition with_local_file (d : deputy) (p : pystr) : deputy :=
  {| name := name d; url := url d; id := id d; group := group d;
     local_file := Some p |}.

(** [download_deputy_pages]: the deputies as the loop leaves them, and the
    probes and requests it makes.  [i] is the position of the deputy. *)
Fixpoint download_from (i : nat) (deputies : list deputy)
  : list deputy * list event :=
  match deputies with
  | [] => ([], [])
  | d :: rest =>
      let p := filepath_of d in
      let '(d', ev) :=
        if use_cache
        then (if path_exists i p then with_local_file d p else d, Probe p)
        else (if fetch_ok i (url d) then with_local_file d p else d,
              Fetch (url d)) in
      let '(rest', evs) := download_from (S i) rest in
      (d' :: rest', ev :: evs)
  end.

Definition download_deputy_pages (deputies : list deputy)
  : list deputy * list event := download_from 0 deputies.

Definition add_role (text : pystr) (c : committee) : committee :=
  {| c_name := c_name c; c_url := c_url c; c_role := Some text |}.

(** [committees[-1]['role'] = text] *)
Fixpoint set_last_role (text : pystr) (committees : list committee)
  : list committee :=
  match committees with
  | [] => []
  | [c] => [add_role text c]
  | c :: cs => c :: set_last_role text cs
  end.

Definition role_trim : pystr := lit " -" ++ [10; 13; 9]%N.

(** The loop over [p_tag.contents]; [None] when an anchor raises. *)
Fixpoint walk_contents (els : list node) (committees : list committee)
  : option (list committee) :=
  match els with
  | [] => Some committees
  | (Tag nm attrs _ as element) :: rest =>
      if PyStr.eqb nm (lit "a") then
        match get_attr (lit "href") attrs with
        | None => None                  (* element['href'] : KeyError *)
        | Some href =>
            match urljoin base_url href with
            | None => None
            | Some u =>
                walk_contents rest
                  (committees ++
                   [{| c_name := strip (get_text element); c_url := u;
                       c_role := None |}])
            end
        end
      else walk_contents rest committees
  | Text s :: rest | Comment s :: rest =>
      let text := strip_chars role_trim s in
      if nonempty text && nonempty committees
      then walk_contents rest (set_last_role text committees)
      else walk_contents rest committees
  end.

Definition is_committee_div (div : node) : bool :=
  has_class (lit "boxDep") div &&
  match find (lit "h3") div with
  | Some h3 => contains (lit "Comisii permanente") (get_text h3)
  | None => false
  end.

(** [parse_deputy_committees] on the parsed detail page. *)
Definition committees_of_page (doc : list node) : list committee :=
  match List.find is_committee_div (soup_find_all (lit "div") doc) with
  | None => []
  | Some committee_div =>
      match find (lit "p") committee_div with
      | None => []
      | Some p_tag =>
          match walk_contents (contents p_tag) [] with
          | Some committees => committees
          | None => []
          end
      end
  end.

Definition parse_deputy_committees (filepath : pystr) : list committee :=
  match read_page filepath with
  | Some doc => committees_of_page doc
  | None => []
  end.

(** [committee.get('role', '')] *)
Definition role_or_empty (c : committee) : pystr :=
  match c_role c with Some r => r | None => [] end.

(** The rows written for one deputy once its committees are known. *)
Definition emit (d : deputy) (committees : list committee)
  : list (list pystr) :=
  match committees with
  | [] => [[name d; url d; id d; []; []; []]]
  | _ :: _ =>
      map (fun c => [name d; url d; id d; group d;
                     c_name c; c_url c; role_or_empty c]) committees
  end.

(** The body of the loop of [process_all] for one deputy. *)
Definition process_deputy (d : deputy) : list event :=
  match local_file d with
  | None => []
  | Some f => ParseDetail f :: map WriteRow (emit d (parse_deputy_committees f))
  end.

(** [process_all], from the parsed listing on. *)
Definition process_all (doc : list node) : list event :=
  match extract_deputies_from_file doc with
  | [] => []
  | (_ :: _) as deputies =>
      let '(deputies', evs) := download_deputy_pages deputies in
      evs ++ OpenCsv :: WriteRow header :: flat_map process_deputy deputies'
  end.

End Scraper.

End ParliamentScraper.

(** ** Upper chamber: [SenatorsScraper] *)

Module SenatorsScraper.

Record senator := mk_senator {
  id : pystr;
  name : pystr;
  birth_date : pystr;
  constituency : pystr;
  group : pystr;
  url : pystr;
  local_file : option pystr
}.

Record committee := mk_committee {
  c_name : pystr;
  c_url : pystr
}.

Definition default_base_url : pystr := lit "https://www.senat.ro".
Definition url_path : pystr := lit "/FisaSenator.aspx?ParlamentarID=".
Definition senators_dir : pystr := lit "senate_data/senators".

Definition header : list pystr :=
  [lit "Senator Name"; lit "Senator URL"; lit "Senator ID"; lit "Birth Date";
   lit "Constituency"; lit "Parliamentary Group"; lit "Committee Name";
   lit "Committee URL"].

(** The three labels of the card text.  The second one is spelt with
    U+0163 (t with cedilla) and U+0103 (a with breve). *)
Definition birth_label : pystr := lit "Data nasterii:".
Definition constituency_label : pystr :=
  lit "Circumscrip" ++ [355%N] ++ lit "ia electoral" ++ [259%N].
Definition group_label : pystr := lit "Grupul parlamentar".

Definition heading_label : pystr := lit "Comisii permanente:".

(** [re.search(r'ParlamentarID=([^&]+)', href)], group 1 *)
Definition id_of_href (href : pystr) : option pystr :=
  re_search (lit "ParlamentarID=") (fun c => negb (N.eqb c 38)) href.

(** [[line.strip() for line in text.split('\n') if line.strip()]] *)
Definition text_lines (text : pystr) : list pystr :=
  filter (@nonempty N) (map strip (split_on 10 text)).

(** The three variables the scan over the lines assigns. *)
Record scanned := mk_scanned {
  s_birth_date : pystr;
  s_constituency : pystr;
  s_group : pystr
}.

Definition scan_line (acc : scanned) (line : pystr) : scanned :=
  if contains birth_label line then
    {| s_birth_date := strip (replace birth_label [] line);
       s_constituency := s_constituency acc; s_group := s_group acc |}
  else if contains constituency_label line then
    {| s_birth_date := s_birth_date acc;
       s_constituency := strip line; s_group := s_group acc |}
  else if contains group_label line then
    {| s_birth_date := s_birth_date acc;
       s_constituency := s_constituency acc; s_group := strip line |}
  else acc.

Definition scan_lines (lines : list pystr) : scanned :=
  fold_left scan_line lines (mk_scanned [] [] []).

Section Scraper.

Variable urljoin : pystr -> pystr -> option pystr.
Variable base_url : pystr.
Variable use_cache : bool.
Variable path_exists : nat -> pystr -> bool.
Variable fetch_ok : nat -> pystr -> bool.
Variable read_page : pystr -> option (list node).

Definition profile_url (senator_id : pystr) : pystr :=
  base_url ++ url_path ++ senator_id.

(** The body of the loop over the cards: [None] when the card is passed
    over, by [continue] or by the [except] clause inside the loop. *)
Definition senator_of_card (card : node) : option senator :=
  match find (lit "a") card with
  | None => None
  | Some link =>
      match id_of_href (attr_or_empty (lit "href") link) with
      | None => None                  (* None.group(1) : AttributeError *)
      | Some senator_id =>
          let f := scan_lines (text_lines (get_text card)) in
          Some {| id := senator_id;
                  name := fix_romanian_str (strip (get_text link));
                  birth_date := s_birth_date f;
                  constituency := fix_romanian_str (s_constituency f);
                  group := fix_romanian_str (s_group f);
                  url := profile_url senator_id;
                  local_file := None |}
      end
  end.

Definition is_card (n : node) : bool :=
  is_tag (lit "div") n && has_class (lit "new-card-without-pics") n.

Fixpoint senators_of_cards (cards : list node) : list senator :=
  match cards with
  | [] => []
  | card :: rest =>
      match senator_of_card card with
      | Some s => s :: senators_of_cards rest
      | None => senators_of_cards rest
      end
  end.

(** [extract_senators_from_file], from the parsed listing on.  The write
    of [senators_info.json] is left out. *)
Definition extract_senators_from_file (doc : list node) : list senator :=
  senators_of_cards (filter is_card (elements doc)).

Definition filepath_of (s : senator) : pystr :=
  senators_dir ++ lit "/" ++ lit "senator_" ++ id s ++ lit ".html".

Definition with_local_file (s : senator) (p : pystr) : senator :=
  {| id := id s; name := name s; birth_date := birth_date s;
     constituency := constituency s; group := group s; url := url s;
     local_file := Some p |}.

(** [download_senator_pages] *)
Fixpoint download_from (i : nat) (senators : list senator)
  : list senator * list event :=
  match senators with
  | [] => ([], [])
  | s :: rest =>
      let p := filepath_of s in
      let '(s', ev) :=
        if use_cache then
          if path_exists i p then (with_local_file s p, [Probe p])
          else (if fetch_ok i (url s) then with_local_file s p else s,
                [Probe p; Fetch (url s)])
        else (if fetch_ok i (url s) then with_local_file s p else s,
              [Fetch (url s)]) in
      let '(rest', evs) := download_from (S i) rest in
      (s' :: rest', ev ++ evs)
  end.

Definition download_senator_pages (senators : list senator)
  : list senator * list event := download_from 0 senators.

Definition is_heading (n : node) : bool :=
  is_tag (lit "h5") n &&
  match tag_string n with
  | Some s => PyStr.eqb s heading_label
  | None => false
  end.

(** The [while] loop over [find_next()], which steps from tag to tag in
    document order (text nodes and comments are not tags and are passed
    over): it stops at the first [h5]; [None] when an anchor raises. *)
Fixpoint scan_links (els : list node) : option (list committee) :=
  match els with
  | [] => Some []
  | (Tag nm attrs _ as current) :: rest =>
      if PyStr.eqb nm (lit "h5") then Some []
      else if PyStr.eqb nm (lit "a") then
        match get_attr (lit "href") attrs with
        | None => None                  (* current['href'] : KeyError *)
        | Some href =>
            match urljoin base_url href with
            | None => None
            | Some u =>
                match scan_links rest with
                | Some cs =>
                    Some ({| c_name := fix_romanian_str (strip (get_text current));
                             c_url := u |} :: cs)
                | None => None
                end
            end
        end
      else scan_links rest
  | _ :: rest => scan_links rest
  end.

(** [parse_senator_committees] on the parsed detail page. *)
Definition committees_of_page (doc : list node) : list committee :=
  match after_first is_heading (elements doc) with
  | None => []
  | Some following =>
      match scan_links following with
      | Some committees => committees
      | None => []
      end
  end.

Definition parse_senator_committees (filepath : pystr) : list committee :=
  match read_page filepath with
  | Some doc => committees_of_page doc
  | None => []
  end.

Definition emit (s : senator) (committees : list committee)
  : list (list pystr) :=
  match committees with
  | [] => [[name s; url s; id s; birth_date s; constituency s; group s;
            []; []]]
  | _ :: _ =>
      map (fun c => [name s; url s; id s; birth_date s; constituency s;
                     group s; c_name c; c_url c]) committees
  end.

Definition process_senator (s : senator) : list event :=
  match local_file s with
  | None => []
  | Some f => ParseDetail f :: map WriteRow (emit s (parse_senator_committees f))
  end.

(** [process_all], from the parsed listing on. *)
Definition process_all (doc : list node) : list event :=
  match extract_senators_from_file doc with
  | [] => []
  | (_ :: _) as senators =>
      let '(senators', evs) := download_senator_pages senators in
      evs ++ OpenCsv :: WriteRow header :: flat_map process_senator senators'
  end.

End Scraper.

End SenatorsScraper.

(** ** Stand-ins for the library parameters in worked examples *)

(** The ASCII digits, which every table of [\d] contains. *)
Definition ascii_digit (c : N) : bool := ((48 <=? c) && (c <=? 57))%N.

(** [urljoin] where the base has no path and the reference begins with a
    slash: the reference is appended to the base. *)
Definition join_rooted (base href : pystr) : option pystr :=
  Some (base ++ href).

(** What the normalizer does to one character. *)
Definition subst1 (a b c : N) : N := if N.eqb a c then b else c.
Definition fix_char (c : N) : N :=
  subst1 170 536 (subst1 222 538 (subst1 254 539 (subst1 186 537 c))).

(** ** The output rows as the specification describes them *)

Module Spec.

(** The Basic Record fields of a row, in column order. *)
Definition deputy_fields (d : ParliamentScraper.deputy) : list pystr :=
  [ParliamentScraper.name d; ParliamentScraper.url d; ParliamentScraper.id d;
   ParliamentScraper.group d].

Definition senator_fields (s : SenatorsScraper.senator) : list pystr :=
  [SenatorsScraper.name s; SenatorsScraper.url s; SenatorsScraper.id s;
   SenatorsScraper.birth_date s; SenatorsScraper.constituency s;
   SenatorsScraper.group s].

(** The committee fields of a row. *)
Definition deputy_committee_fields (c : ParliamentScraper.committee)
  : list pystr :=
  [ParliamentScraper.c_name c; ParliamentScraper.c_url c;
   ParliamentScraper.role_or_empty c].

Definition senator_committee_fields (c : SenatorsScraper.committee)
  : list pystr :=
  [SenatorsScraper.c_name c; SenatorsScraper.c_url c].

(** The placeholder row: every Basic Record field, empty committee
    fields. *)
Definition deputy_placeholder (d : ParliamentScraper.deputy) : list pystr :=
  deputy_fields d ++ [[]; []; []].

Definition senator_placeholder (s : SenatorsScraper.senator) : list pystr :=
  senator_fields s ++ [[]; []].

End Spec.

(** ** Sample documents *)

Module Examples.

Definition anchor (href text : pystr) : node :=
  Tag (lit "a") [(lit "href", href)] [Text text].
Definition td (cs : list node) : node := Tag (lit "td") [] cs.
Definition tr (cs : list node) : node := Tag (lit "tr") [] cs.

Definition header_row : node :=
  tr [Tag (lit "th") [] [Text (lit "Nr.")];
      Tag (lit "th") [] [Text (lit "Nume")];
      Tag (lit "th") [] [Text (lit "Circumscriptie")];
      Tag (lit "th") [] [Text (lit "Grup")]].

Definition deputy_row (n href name constituency group : pystr) : node :=
  tr [td [Text n]; td [anchor href name]; td [Text constituency];
      td [Text group]].

Definition row_ion_pop : node :=
  deputy_row (lit "1")
    (lit "https://cdep.ro/pls/parlam/structura2015.mp?idm=123&cam=2&leg=2020")
    (lit " Ion Pop ") (lit "Cluj") (lit "PSD").

Definition row_ana_dinu : node :=
  deputy_row (lit "3")
    (lit "https://cdep.ro/pls/parlam/structura2015.mp?idm=77&cam=2&leg=2020")
    (lit "Ana Dinu") (lit "Iasi") (lit "PNL").

(** A row whose anchor carries no [href]. *)
Definition row_without_href : node :=
  tr [td [Text (lit "2")];
      td [Tag (lit "a") [(lit "name", lit "x")] [Text (lit "Dan Micu")]];
      td [Text (lit "Arad")]; td [Text (lit "USR")]].

(** A row whose link holds [idm=] without a digit after it. *)
Definition row_without_digits : node :=
  deputy_row (lit "4") (lit "structura2015.mp?idm=&cam=2") (lit "Fara Numar")
    (lit "Dolj") (lit "UDMR").

Definition listing (rows : list node) : list node :=
  [Tag (lit "html") []
     [Tag (lit "body") [] [Tag (lit "table") [] (header_row :: rows)]]].

Definition ion_pop : ParliamentScraper.deputy :=
  {| ParliamentScraper.name := lit "Ion Pop";
     ParliamentScraper.url :=
       lit "https://cdep.ro/pls/parlam/structura2015.mp?idm=123";
     ParliamentScraper.id := lit "123";
     ParliamentScraper.group := lit "PSD";
     ParliamentScraper.local_file := None |}.

Definition ion_pop_file : pystr :=
  lit "parliament_data/deputies/deputy_123_Ion_Pop.html".

(** A committees paragraph: two anchors and a role after the second. *)
Definition two_committees : list node :=
  [anchor (lit "/co?idc=1") (lit "Comisia juridica");
   Tag (lit "br") [] [];
   anchor (lit "/co?idc=2") (lit "Comisia pentru buget");
   Text (lit " - Vicepresedinte ")].

(** One anchor, its role, a line break and the newline after it. *)
Definition role_then_newline : list node :=
  [anchor (lit "/co?idc=1") (lit "Comisia juridica");
   Text (lit " - Presedinte");
   Tag (lit "br") [] [];
   Text [10%N]].

(** A good anchor followed by one that has no [href]. *)
Definition anchor_without_href : list node :=
  [anchor (lit "/co?idc=1") (lit "Comisia juridica");
   Tag (lit "a") [(lit "name", lit "sus")] [Text (lit "sus")]].

Definition deputy_page (paragraph : list node) : list node :=
  [Tag (lit "div") [(lit "class", lit "boxDep clearfix")]
     [Tag (lit "h3") [] [Text (lit "Comisii permanente")];
      Tag (lit "p") [] paragraph]].

(** A detail page without a committees section. *)
Definition bare_page : list node :=
  [Tag (lit "div") [(lit "class", lit "boxDep")]
     [Tag (lit "h3") [] [Text (lit "Grupul parlamentar")]]].

Definition card (href name : pystr) (lines : pystr) : node :=
  Tag (lit "div") [(lit "class", lit "new-card-without-pics")]
    [anchor href name; Tag (lit "p") [] [Text lines]].

Definition card_maria : node :=
  card (lit "FisaSenator.aspx?ParlamentarID=ab-12&x=1") (lit "Maria Ene")
    ([10%N] ++ lit "Data nasterii: 01.02.1970" ++ [10%N]
     ++ SenatorsScraper.constituency_label ++ lit " nr.13 CLUJ" ++ [10%N]
     ++ lit "Grupul parlamentar PSD" ++ [10%N]).

(** The record that [card_maria] gives. *)
Definition maria : SenatorsScraper.senator :=
  {| SenatorsScraper.id := lit "ab-12";
     SenatorsScraper.name := lit "Maria Ene";
     SenatorsScraper.birth_date := lit "01.02.1970";
     SenatorsScraper.constituency :=
       SenatorsScraper.constituency_label ++ lit " nr.13 CLUJ";
     SenatorsScraper.group := lit "Grupul parlamentar PSD";
     SenatorsScraper.url :=
       lit "https://www.senat.ro/FisaSenator.aspx?ParlamentarID=ab-12";
     SenatorsScraper.local_file := None |}.

(** A card whose link has no id. *)
Definition card_without_id : node :=
  card (lit "FisaSenator.aspx") (lit "Fara Id") (lit "Grupul parlamentar X").

Definition card_dan : node :=
  card (lit "FisaSenator.aspx?ParlamentarID=cd-34") (lit "Dan Pop") [].

Definition senator_page (after_heading : list node) : list node :=
  [Tag (lit "div") []
     (Tag (lit "h5") [] [Text SenatorsScraper.heading_label] :: after_heading)].

Definition ion_pop_cached : ParliamentScraper.deputy :=
  ParliamentScraper.with_local_file ion_pop ion_pop_file.

(** After the committees heading: a list with one committee link, a
    heading of another kind, and a link of an unrelated section. *)
Definition committees_then_contact : list node :=
  [Tag (lit "ul") []
     [Tag (lit "li") []
        [anchor (lit "/Comisie.aspx?Zi=1") (lit "Comisia juridica")]];
   Tag (lit "h4") [] [Text (lit "Contact")];
   anchor (lit "/Contact.aspx") (lit "Scrie senatorului")].

(** A world in which no detail page can be had. *)
Definition nothing_exists : nat -> pystr -> bool := fun _ _ => false.
Definition nothing_loads : nat -> pystr -> bool := fun _ _ => false.
Definition nothing_readable : pystr -> option (list node) := fun _ => None.
(** A world in which every page is cached and holds [page]. *)
Definition all_exist : nat -> pystr -> bool := fun _ _ => true.
Definition always (page : list node) : pystr -> option (list node) :=
  fun _ => Some page.

End Examples.

(** ** Rows and cards that yield a record *)

(** A row of the lower-chamber table that gives a record: at least four
    cells, and in the second one a link whose [href] holds [idm=] followed
    by a digit. *)
Definition qualifying_row (is_decimal : N -> bool) (row : node) : bool :=
  let cols := find_all (lit "td") row in
  (4 <=? length cols)%nat &&
  match nth_error cols 1 with
  | Some c1 =>
      match find (lit "a") c1 with
      | Some link =>
          match attr (lit "href") link with
          | Some href =>
              match ParliamentScraper.id_of_href is_decimal href with
              | Some _ => true
              | None => false
              end
          | None => false
          end
      | None => false
      end
  | None => false
  end.

(** A card of the upper-chamber listing that gives a record: it has a link
    whose [href] holds [ParlamentarID=] followed by a character other than
    the ampersand. *)
Definition qualifying_card (card : node) : bool :=
  match find (lit "a") card with
  | Some link =>
      match SenatorsScraper.id_of_href (attr_or_empty (lit "href") link) with
      | Some _ => true
      | None => false
      end
  | None => false
  end.

(** ** The committees paragraph of the lower chamber, read as a whole *)

Section CommitteeParagraph.

Variable urljoin : pystr -> pystr -> option pystr.
Variable base_url : pystr.

Definition trim_role (s : pystr) : pystr :=
  strip_chars ParliamentScraper.role_trim s.

(** The role that the text children before the next anchor leave, [role]
    being the one already there: the last of them that is not empty once
    trimmed. *)
Fixpoint role_scan (els : list node) (role : option pystr) : option pystr :=
  match els with
  | [] => role
  | Tag nm _ _ :: rest =>
      if PyStr.eqb nm (lit "a") then role else role_scan rest role
  | Text s :: rest | Comment s :: rest =>
      role_scan rest (if nonempty (trim_role s) then Some (trim_role s)
                      else role)
  end.

(** One association per anchor child, its role read off the children that
    follow it; [None] when an anchor has no [href] or [urljoin] raises. *)
Fixpoint associations (els : list node)
  : option (list ParliamentScraper.committee) :=
  match els with
  | [] => Some []
  | (Tag nm attrs _ as element) :: rest =>
      if PyStr.eqb nm (lit "a") then
        match get_attr (lit "href") attrs with
        | None => None
        | Some href =>
            match urljoin base_url href with
            | None => None
            | Some u =>
                match associations rest with
                | Some cs =>
                    Some ({| ParliamentScraper.c_name :=
                               strip (get_text element);
                             ParliamentScraper.c_url := u;
                             ParliamentScraper.c_role := role_scan rest None |}
                          :: cs)
                | None => None
                end
            end
        end
      else associations rest
  | _ :: rest => associations rest
  end.

(** The walk as the specification words it: every text child, once
    trimmed, becomes the role of the latest association when there is
    one, whatever is left of the text. *)
Fixpoint walk_as_claimed (els : list node)
         (committees : list ParliamentScraper.committee)
  : option (list ParliamentScraper.committee) :=
  match els with
  | [] => Some committees
  | (Tag nm attrs _ as element) :: rest =>
      if PyStr.eqb nm (lit "a") then
        match get_attr (lit "href") attrs with
        | None => None
        | Some href =>
            match urljoin base_url href with
            | None => None
            | Some u =>
                walk_as_claimed rest
                  (committees ++
                   [{| ParliamentScraper.c_name := strip (get_text element);
                       ParliamentScraper.c_url := u;
                       ParliamentScraper.c_role := None |}])
            end
        end
      else walk_as_claimed rest committees
  | Text s :: rest | Comment s :: rest =>
      if nonempty committees
      then walk_as_claimed rest
             (ParliamentScraper.set_last_role (trim_role s) committees)
      else walk_as_claimed rest committees
  end.

(** The role already known, written into the latest association. *)
Definition amend (role : option pystr)
           (committees : list ParliamentScraper.committee)
  : list ParliamentScraper.committee :=
  match role with
  | Some text => ParliamentScraper.set_last_role text committees
  | None => committees
  end.

End CommitteeParagraph.

(** ** The labelled lines of an upper-chamber card *)

(** The last line that satisfies [p]. *)
Fixpoint last_where (p : pystr -> bool) (lines : list pystr)
  : option pystr :=
  match lines with
  | [] => None
  | l :: rest =>
      match last_where p rest with
      | Some x => Some x
      | None => if p l then Some l else None
      end
  end.

(** Which variable a line of the card text assigns: the three tests are
    tried in this order and the first that holds wins. *)
Definition is_birth_line (l : pystr) : bool :=
  contains SenatorsScraper.birth_label l.
Definition is_constituency_line (l : pystr) : bool :=
  negb (contains SenatorsScraper.birth_label l) &&
  contains SenatorsScraper.constituency_label l.
Definition is_group_line (l : pystr) : bool :=
  negb (contains SenatorsScraper.birth_label l) &&
  negb (contains SenatorsScraper.constituency_label l) &&
  contains SenatorsScraper.group_label l.

(** What follows the first occurrence of [label] in [line]. *)
Fixpoint after_label (label line : pystr) : option pystr :=
  match strip_prefix label line with
  | Some rest => Some rest
  | None =>
      match line with
      | [] => None
      | _ :: line' => after_label label line'
      end
  end.

(** The text after the label, trimmed, as the specification has it. *)
Definition text_after_label (label line : pystr) : pystr :=
  match after_label label line with
  | Some rest => strip rest
  | None => []
  end.

(** ** The anchors after the committees heading of the upper chamber *)

Section AfterHeading.

Variable urljoin : pystr -> pystr -> option pystr.
Variable base_url : pystr.

(** The association an anchor gives; [None] when it has no [href] or
    [urljoin] raises. *)
Definition link_of (n : node) : option SenatorsScraper.committee :=
  match attr (lit "href") n with
  | Some href =>
      match urljoin base_url href with
      | Some u =>
          Some {| SenatorsScraper.c_name := fix_romanian_str (strip (get_text n));
                  SenatorsScraper.c_url := u |}
      | None => None
      end
  | None => None
  end.

(** All the values, or nothing when one is missing. *)
Fixpoint all_or_nothing (A : Type) (l : list (option A)) : option (list A) :=
  match l with
  | [] => Some []
  | None :: _ => None
  | Some x :: rest =>
      match all_or_nothing rest with
      | Some xs => Some (x :: xs)
      | None => None
      end
  end.

End AfterHeading.

(** ** The characters the normalizer replaces *)

(** A key of the [replacements] dict. *)
Definition mis_decoded (c : N) : bool :=
  existsb (fun r => PyStr.eqb (fst r) [c]) replacements.

(** ** Kinds of events *)

(** The events of the download stage. *)
Definition is_download (e : event) : bool :=
  match e with
  | Probe _ | Fetch _ => true
  | _ => false
  end.

(** The events of the loop that parses the detail files and writes the
    rows. *)
Definition is_emit (e : event) : bool :=
  match e with
  | ParseDetail _ | WriteRow _ => true
  | _ => false
  end.

Definition is_fetch (e : event) : bool :=
  match e with
  | Fetch _ => true
  | _ => false
  end.

(** ** What the download stage does to a record *)

(** What the download stage may do to a record: nothing, or add the
    detail file under the path made from the record. *)
Definition deputy_enriched (d d' : ParliamentScraper.deputy) : Prop :=
  d' = d \/
  d' = ParliamentScraper.with_local_file d (ParliamentScraper.filepath_of d).

Definition senator_enriched (s s' : SenatorsScraper.senator) : Prop :=
  s' = s \/
  s' = SenatorsScraper.with_local_file s (SenatorsScraper.filepath_of s).


(** ** What a detail page gives *)

(** What holds of an association read off a lower-chamber detail page:
    the name is trimmed, the URL is what [urljoin] made of the base URL
    and some reference, and the role, when there is one, is not empty and
    is trimmed of the role characters. *)
Definition committee_wellformed (urljoin : pystr -> pystr -> option pystr)
           (base_url : pystr) (c : ParliamentScraper.committee) : Prop :=
  strip (ParliamentScraper.c_name c) = ParliamentScraper.c_name c /\
  (exists href, urljoin base_url href = Some (ParliamentScraper.c_url c)) /\
  match ParliamentScraper.c_role c with
  | None => True
  | Some r => r <> [] /\ trim_role r = r
  end.

(** After the committees heading: one committee link, a heading of the
    same level, and an anchor without [href]. *)
Definition committee_then_heading : list node :=
  [Examples.anchor (lit "/Comisie.aspx?Zi=1") (lit "Comisia juridica");
   Tag (lit "h5") [] [Text (lit "Delegatii:")];
   Tag (lit "a") [(lit "name", lit "sus")] [Text (lit "sus")]].

(** ** The stand-alone listing scripts *)

(** *** [extract-deputies.py] *)

Module ExtractDeputies.

(** The dict built for one deputy. *)
Record deputy := mk_deputy {
  id : pystr;
  name : pystr;
  constituency : pystr;
  group : pystr;
  url : pystr
}.

Definition url_template : pystr :=
  lit "https://cdep.ro/pls/parlam/structura2015.mp?idm=".

Definition header : list pystr :=
  [lit "ID"; lit "Name"; lit "Constituency"; lit "Parliamentary Group";
   lit "URL"].

(** The outcome of one row: it raises, it is passed over, or it gives a
    record. *)
Inductive row_result :=
| Raised
| Skipped
| Found (d : deputy).

Section Script.

(** [\d]: the decimal digits of the Unicode database. *)
Variable is_decimal : N -> bool.

(** [re.search(r'idm=(\d+)', href)], group 1 *)
Definition id_of_href (href : pystr) : option pystr :=
  re_search (lit "idm=") is_decimal href.

Definition deputy_of_row (row : node) : row_result :=
  let cells := find_all (lit "td") row in
  if (4 <=? length cells)%nat then
    match nth_error cells 1, nth_error cells 2, nth_error cells 3 with
    | Some c1, Some c2, Some c3 =>
        match find (lit "a") c1 with
        | Some link =>
            if contains (lit "idm=") (attr_or_empty (lit "href") link) then
              match attr (lit "href") link with
              | None => Raised          (* link['href'] : KeyError *)
              | Some href =>
                  match id_of_href href with
                  | None => Raised      (* None.group(1) : AttributeError *)
                  | Some deputy_id =>
                      Found {| id := deputy_id;
                               name := strip (get_text link);
                               constituency := strip (get_text c2);
                               group := strip (get_text c3);
                               url := url_template ++ deputy_id |}
                  end
              end
            else Skipped
        | None => Skipped
        end
    | _, _, _ => Skipped
    end
  else Skipped.

(** The loop over the rows; [None] when some row raised. *)
Fixpoint deputies_of_rows (rows : list node) : option (list deputy) :=
  match rows with
  | [] => Some []
  | row :: rest =>
      match deputy_of_row row with
      | Raised => None
      | Skipped => deputies_of_rows rest
      | Found d =>
          match deputies_of_rows rest with
          | Some ds => Some (d :: ds)
          | None => None
          end
      end
  end.

Definition row_of (d : deputy) : list pystr :=
  [id d; name d; constituency d; group d; url d].


End Script.

End ExtractDeputies.

(** *** [extract-senators.py] *)

Module ExtractSenators.

(** The dict built for one senator. *)
Record senator := mk_senator {
  id : pystr;
  name : pystr;
  birth_date : pystr;
  constituency : pystr;
  group : pystr;
  url : pystr
}.

Definition url_template : pystr :=
  lit "https://www.senat.ro/FisaSenator.aspx?ParlamentarID=".

Definition header : list pystr :=
  [lit "ID"; lit "Name"; lit "Birth Date"; lit "Constituency";
   lit "Parliamentary Group"; lit "URL"].

(** The body of the loop over the cards: [None] when the card is passed
    over, by [continue] or by the [except] clause inside the loop.  The
    pattern of the id, the lines of the card text and the scan over them
    are written as in [senators-scraper.py]. *)
Definition senator_of_card (card : node) : option senator :=
  match find (lit "a") card with
  | None => None
  | Some link =>
      match SenatorsScraper.id_of_href (attr_or_empty (lit "href") link) with
      | None => None                  (* None.group(1) : AttributeError *)
      | Some senator_id =>
          let f :=
            SenatorsScraper.scan_lines
              (SenatorsScraper.text_lines (get_text card)) in
          Some {| id := senator_id;
                  name := fix_romanian_str (strip (get_text link));
                  birth_date := SenatorsScraper.s_birth_date f;
                  constituency :=
                    fix_romanian_str (SenatorsScraper.s_constituency f);
                  group := fix_romanian_str (SenatorsScraper.s_group f);
                  url := url_template ++ senator_id |}
      end
  end.

Fixpoint senators_of_cards (cards : list node) : list senator :=
  match cards with
  | [] => []
  | card :: rest =>
      match senator_of_card card with
      | Some s => s :: senators_of_cards rest
      | None => senators_of_cards rest
      end
  end.

Definition senators_of (doc : list node) : list senator :=
  senators_of_cards
    (filter (fun n => is_tag (lit "div") n &&
                      has_class (lit "new-card-without-pics") n)
            (elements doc)).

Definition row_of (s : senator) : list pystr :=
  [id s; name s; birth_date s; constituency s; group s; url s].

(** [groups[group] = groups.get(group, 0) + 1] on a dict kept as the list
    of its items in insertion order. *)
Fixpoint bump (g : pystr) (groups : list (pystr * nat))
  : list (pystr * nat) :=
  match groups with
  | [] => [(g, 1)]
  | (k, n) :: rest =>
      if PyStr.eqb k g then (k, n + 1) :: rest else (k, n) :: bump g rest
  end.

Definition groups_of (senators : list senator) : list (pystr * nat) :=
  fold_left (fun groups s => bump (group s) groups) senators [].

(** [<] on [str]: code point by code point, a proper prefix first. *)
Fixpoint str_lt (s t : pystr) : bool :=
  match s, t with
  | _, [] => false
  | [], _ :: _ => true
  | c :: s', d :: t' => (c <? d)%N || ((c =? d)%N && str_lt s' t')
  end.

(** [<] on the items: the key, then the count. *)
Definition item_lt (a b : pystr * nat) : bool :=
  str_lt (fst a) (fst b) ||
  (PyStr.eqb (fst a) (fst b) && (snd a <? snd b)).

(** [sorted]: ascending and stable. *)
Fixpoint insert (x : pystr * nat) (l : list (pystr * nat))
  : list (pystr * nat) :=
  match l with
  | [] => [x]
  | y :: l' => if item_lt y x then y :: insert x l' else x :: y :: l'
  end.

Fixpoint sorted (l : list (pystr * nat)) : list (pystr * nat) :=
  match l with
  | [] => []
  | x :: l' => insert x (sorted l')
  end.

(** The lines of the distribution in the order they are printed, each as
    its group and its count. *)
Definition distribution (senators : list senator) : list (pystr * nat) :=
  sorted (groups_of senators).

(** [extract_senators], from the parsed file on: the output file is
    written whatever the number of records. *)
Definition extract_senators (doc : list node) : list event :=
  OpenCsv :: WriteRow header ::
  map (fun s => WriteRow (row_of s)) (senators_of doc).

End ExtractSenators.

(** The number of senators of a group. *)
Definition members (g : pystr) (senators : list ExtractSenators.senator)
  : nat :=
  length (filter (fun s => PyStr.eqb (ExtractSenators.group s) g) senators).

(** The fields the two lower-chamber extractors have in common. *)
Definition scraper_core (d : ParliamentScraper.deputy) : list pystr :=
  [ParliamentScraper.id d; ParliamentScraper.name d;
   ParliamentScraper.group d; ParliamentScraper.url d].

Definition script_core (d : ExtractDeputies.deputy) : list pystr :=
  [ExtractDeputies.id d; ExtractDeputies.name d; ExtractDeputies.group d;
   ExtractDeputies.url d].

(** How the two lower-chamber extractors may treat one row. *)
Definition rows_agree (scraper : ParliamentScraper.row_result)
           (script : ExtractDeputies.row_result) : Prop :=
  match scraper, script with
  | ParliamentScraper.Found d, ExtractDeputies.Found d' =>
      scraper_core d = script_core d'
  | ParliamentScraper.Skipped, ExtractDeputies.Skipped => True
  | ParliamentScraper.Raised, ExtractDeputies.Skipped => True
  | ParliamentScraper.Skipped, ExtractDeputies.Raised => True
  | _, _ => False
  end.

(** A scraper record in the column order of the stand-alone script. *)
Definition script_columns (s : SenatorsScraper.senator) : list pystr :=
  [SenatorsScraper.id s; SenatorsScraper.name s; SenatorsScraper.birth_date s;
   SenatorsScraper.constituency s; SenatorsScraper.group s;
   SenatorsScraper.url s].

(** [dict.get(g)] on the list of items. *)
Fixpoint lookup (g : pystr) (groups : list (pystr * nat)) : option nat :=
  match groups with
  | [] => None
  | (k, n) :: rest => if PyStr.eqb k g then Some n else lookup g rest
  end.

(** Two runs over one-record listings, every detail page cached. *)
Definition run_maria : list event :=
  SenatorsScraper.process_all join_rooted SenatorsScraper.default_base_url
    true Examples.all_exist Examples.nothing_loads
    (Examples.always (Examples.senator_page Examples.committees_then_contact))
    [Examples.card_maria].

Definition run_ion_pop : list event :=
  ParliamentScraper.process_all ascii_digit join_rooted
    ParliamentScraper.default_base_url true Examples.all_exist
    Examples.nothing_loads
    (Examples.always (Examples.deputy_page Examples.two_committees))
    (Examples.listing [Examples.row_ion_pop]).

(** The records a loop over rows gives, none when it raises. *)
Definition records_or_none (A : Type) (r : option (list A)) : list A :=
  match r with Some l => l | None => [] end.
(** * Properties *)

(** ** Strings *)

Lemma eqb_eq (s t : pystr) : PyStr.eqb s t = true <-> s = t.
Proof.
  revert t; induction s as [|a s IH]; intros [|b t]; simpl;
    try (split; congruence).
  rewrite andb_true_iff, N.eqb_eq, IH. split.
  - intros [-> ->]; reflexivity.
  - intros E; inversion E; auto.
Qed.

Lemma eqb_refl (s : pystr) : PyStr.eqb s s = true.
Proof. apply eqb_eq; reflexivity. Qed.

Lemma replace_single (a b : N) (s : pystr) :
  replace [a] [b] s = map (subst1 a b) s.
Proof.
  unfold replace. induction s as [|c s IH]; simpl; [reflexivity|].
  unfold starts_with, subst1; simpl.
  destruct (N.eqb a c); simpl; rewrite IH; reflexivity.
Qed.

Lemma fix_romanian_str_map (s : pystr) :
  fix_romanian_str s = map fix_char s.
Proof.
  unfold fix_romanian_str, replacements; cbn [fold_left fst snd].
  rewrite !replace_single, !map_map. reflexivity.
Qed.

Lemma subst1_neq (a b c : N) : a <> c -> subst1 a b c = c.
Proof. unfold subst1; intros H; apply N.eqb_neq in H; now rewrite H. Qed.

Lemma fix_char_idempotent (c : N) : fix_char (fix_char c) = fix_char c.
Proof.
  unfold fix_char.
  destruct (N.eq_dec 186 c) as [<-|H1]; [reflexivity|].
  rewrite (subst1_neq 537 H1).
  destruct (N.eq_dec 254 c) as [<-|H2]; [reflexivity|].
  rewrite (subst1_neq 539 H2).
  destruct (N.eq_dec 222 c) as [<-|H3]; [reflexivity|].
  rewrite (subst1_neq 538 H3).
  destruct (N.eq_dec 170 c) as [<-|H4]; [reflexivity|].
  rewrite (subst1_neq 536 H4).
  now rewrite (subst1_neq 537 H1), (subst1_neq 539 H2),
    (subst1_neq 538 H3), (subst1_neq 536 H4).
Qed.

Lemma fix_romanian_str_idempotent (s : pystr) :
  fix_romanian_str (fix_romanian_str s) = fix_romanian_str s.
Proof.
  rewrite !fix_romanian_str_map, map_map.
  apply map_ext; intros; apply fix_char_idempotent.
Qed.

(** ** The character normalizer *)

(** C8: the normalizer is idempotent on every value it can be given, and
    it returns a value that is not a string, or the empty string,
    unchanged. *)
Theorem fix_romanian_chars_idempotent :
  forall x : pyval,
    fix_romanian_chars (fix_romanian_chars x) = fix_romanian_chars x /\
    match x with
    | VStr (_ :: _) => True
    | _ => fix_romanian_chars x = x
    end.
Proof.
  intros x; split.
  - destruct x; simpl; try reflexivity.
    now rewrite fix_romanian_str_idempotent.
  - destruct x as [[|c s]| | | |]; simpl; auto.
Qed.

(** ** The id patterns *)

Section Patterns.

Variable literal : pystr.
Variable cls : N -> bool.

Lemma re_search_unfold (s : pystr) :
  re_search literal cls s =
  match
    match strip_prefix literal s with
    | Some rest => take_while cls rest
    | None => []
    end
  with
  | (_ :: _) as g => Some g
  | [] => match s with [] => None | _ :: s' => re_search literal cls s' end
  end.
Proof. destruct s; reflexivity. Qed.

Lemma take_while_forallb (s : pystr) : forallb cls (take_while cls s) = true.
Proof.
  induction s as [|c s IH]; simpl; [reflexivity|].
  destruct (cls c) eqn:E; simpl; [now rewrite E|reflexivity].
Qed.

Lemma take_while_all (g : pystr) :
  forallb cls g = true -> take_while cls g = g.
Proof.
  induction g as [|c g IH]; simpl; [reflexivity|].
  intros H; apply andb_true_iff in H as [-> H]. now rewrite IH.
Qed.

(** A match is a non-empty run of characters of the class. *)
Lemma re_search_some (s g : pystr) :
  re_search literal cls s = Some g -> g <> [] /\ forallb cls g = true.
Proof.
  induction s as [|c s IH]; rewrite re_search_unfold.
  - destruct (strip_prefix literal []) as [rest|]; [|discriminate].
    pose proof (take_while_forallb rest) as T.
    destruct (take_while cls rest); [intros E; discriminate E|].
    intros E; inversion E; subst; split; [discriminate|exact T].
  - destruct (strip_prefix literal (c :: s)) as [rest|]; [|exact IH].
    pose proof (take_while_forallb rest) as T.
    destruct (take_while cls rest); [exact IH|].
    intros E; inversion E; subst; split; [discriminate|exact T].
Qed.

Lemma strip_prefix_app (l s : pystr) : strip_prefix l (l ++ s) = Some s.
Proof.
  induction l as [|a l IH]; simpl; [now destruct s|].
  now rewrite N.eqb_refl.
Qed.

(** The pattern finds a run that directly follows the literal. *)
Lemma re_search_here (g : pystr) :
  g <> [] -> forallb cls g = true ->
  re_search literal cls (literal ++ g) = Some g.
Proof.
  intros Hne Hall. rewrite re_search_unfold, strip_prefix_app.
  rewrite (take_while_all _ Hall). destruct g; [contradiction|reflexivity].
Qed.

End Patterns.

(** Text in which the first character of the literal does not occur is
    passed over by the search. *)
Lemma re_search_skip (h : N) (l : pystr) (cls : N -> bool)
      (pre s : pystr) :
  forallb (fun c => negb (N.eqb h c)) pre = true ->
  re_search (h :: l) cls (pre ++ s) = re_search (h :: l) cls s.
Proof.
  induction pre as [|c pre IH]; simpl; [reflexivity|].
  intros H; apply andb_true_iff in H as [Hc Hpre].
  apply negb_true_iff in Hc. rewrite Hc. now apply IH.
Qed.

Lemma deputy_roundtrip (is_decimal : N -> bool) (i : pystr) :
  i <> [] -> forallb is_decimal i = true ->
  ParliamentScraper.id_of_href is_decimal (ParliamentScraper.profile_url i)
  = Some i.
Proof.
  intros Hne Hall.
  unfold ParliamentScraper.id_of_href, ParliamentScraper.profile_url.
  change ParliamentScraper.url_template
    with (lit "https://cdep.ro/pls/parlam/structura2015.mp?" ++ lit "idm=").
  rewrite <- app_assoc.
  change (lit "idm=") with (105%N :: lit "dm=").
  rewrite re_search_skip by reflexivity.
  now apply re_search_here.
Qed.

Lemma senator_roundtrip (i : pystr) :
  i <> [] -> forallb (fun c => negb (N.eqb c 38)) i = true ->
  SenatorsScraper.id_of_href
    (SenatorsScraper.profile_url SenatorsScraper.default_base_url i) = Some i.
Proof.
  intros Hne Hall.
  unfold SenatorsScraper.id_of_href, SenatorsScraper.profile_url.
  change SenatorsScraper.url_path
    with (lit "/FisaSenator.aspx?" ++ lit "ParlamentarID=").
  rewrite <- app_assoc, app_assoc.
  change (lit "ParlamentarID=") with (80%N :: lit "arlamentarID=").
  rewrite re_search_skip by reflexivity.
  now apply re_search_here.
Qed.

(** C9: an id that the listing parser took from a link is found again in
    the profile URL built from it, in both chambers. *)
Theorem profile_url_roundtrip :
  forall (is_decimal : N -> bool) (href i : pystr),
    (ParliamentScraper.id_of_href is_decimal href = Some i ->
     ParliamentScraper.id_of_href is_decimal
       (ParliamentScraper.profile_url i) = Some i) /\
    (SenatorsScraper.id_of_href href = Some i ->
     SenatorsScraper.id_of_href
       (SenatorsScraper.profile_url SenatorsScraper.default_base_url i)
     = Some i).
Proof.
  intros is_decimal href i; split; intros H.
  - apply re_search_some in H as [Hne Hall]. now apply deputy_roundtrip.
  - apply re_search_some in H as [Hne Hall]. now apply senator_roundtrip.
Qed.

(** ** The emitter *)

Lemma rows_of_write (rows : list (list pystr)) :
  rows_of (map WriteRow rows) = rows.
Proof.
  unfold rows_of. induction rows as [|r rows IH]; simpl; [reflexivity|].
  now rewrite IH.
Qed.

Lemma rows_of_app (l1 l2 : list event) :
  rows_of (l1 ++ l2) = rows_of l1 ++ rows_of l2.
Proof. unfold rows_of. apply flat_map_app. Qed.

Section Emitter.

Variable urljoin : pystr -> pystr -> option pystr.
Variable base_url : pystr.
Variable read_page : pystr -> option (list node).

Let parse_deputy := ParliamentScraper.parse_deputy_committees urljoin base_url read_page.
Let parse_senator := SenatorsScraper.parse_senator_committees urljoin base_url read_page.
Let process_deputy := ParliamentScraper.process_deputy urljoin base_url read_page.
Let process_senator := SenatorsScraper.process_senator urljoin base_url read_page.

Lemma deputy_rows (d : ParliamentScraper.deputy) (f : pystr) :
  ParliamentScraper.local_file d = Some f ->
  rows_of (process_deputy d) = ParliamentScraper.emit d (parse_deputy f).
Proof.
  intros H. unfold process_deputy, ParliamentScraper.process_deputy.
  rewrite H. cbn [rows_of flat_map app]. apply rows_of_write.
Qed.

Lemma senator_rows (s : SenatorsScraper.senator) (f : pystr) :
  SenatorsScraper.local_file s = Some f ->
  rows_of (process_senator s) = SenatorsScraper.emit s (parse_senator f).
Proof.
  intros H. unfold process_senator, SenatorsScraper.process_senator.
  rewrite H. cbn [rows_of flat_map app]. apply rows_of_write.
Qed.

Lemma deputy_emit_committees (d : ParliamentScraper.deputy)
      (cs : list ParliamentScraper.committee) :
  cs <> [] ->
  ParliamentScraper.emit d cs =
  map (fun c => Spec.deputy_fields d ++ Spec.deputy_committee_fields c) cs.
Proof. destruct cs; [contradiction|reflexivity]. Qed.

Lemma senator_emit_committees (s : SenatorsScraper.senator)
      (cs : list SenatorsScraper.committee) :
  cs <> [] ->
  SenatorsScraper.emit s cs =
  map (fun c => Spec.senator_fields s ++ Spec.senator_committee_fields c) cs.
Proof. destruct cs; [contradiction|reflexivity]. Qed.

(** C6: a record whose detail page gave k > 0 committee associations
    contributes exactly k rows, one per association and in their order;
    each row is the record's own fields followed by the fields of that
    association, so the rows differ in the committee fields only. *)
Theorem one_row_per_association :
  forall (d : ParliamentScraper.deputy) (s : SenatorsScraper.senator)
         (f : pystr),
    (ParliamentScraper.local_file d = Some f ->
     parse_deputy f <> [] ->
     rows_of (process_deputy d) =
       map (fun c => Spec.deputy_fields d ++ Spec.deputy_committee_fields c)
           (parse_deputy f) /\
     length (rows_of (process_deputy d)) = length (parse_deputy f)) /\
    (SenatorsScraper.local_file s = Some f ->
     parse_senator f <> [] ->
     rows_of (process_senator s) =
       map (fun c => Spec.senator_fields s ++ Spec.senator_committee_fields c)
           (parse_senator f) /\
     length (rows_of (process_senator s)) = length (parse_senator f)).
Proof.
  intros d s f; split; intros Hf Hne.
  - rewrite (deputy_rows _ Hf), (deputy_emit_committees _ Hne).
    split; [reflexivity|apply length_map].
  - rewrite (senator_rows _ Hf), (senator_emit_committees _ Hne).
    split; [reflexivity|apply length_map].
Qed.

End Emitter.

(** In the upper chamber the row written for an empty committee list is
    the placeholder row. *)
Lemma senator_emit_empty (s : SenatorsScraper.senator) :
  SenatorsScraper.emit s [] = [Spec.senator_placeholder s].
Proof. reflexivity. Qed.

(** In the lower chamber that row has six cells: the group is not
    written. *)
Lemma deputy_emit_empty (d : ParliamentScraper.deputy) :
  ParliamentScraper.emit d [] =
  [[ParliamentScraper.name d; ParliamentScraper.url d; ParliamentScraper.id d;
    []; []; []]].
Proof. reflexivity. Qed.

(** C2, lower chamber: the deputy Ion Pop of group PSD, whose detail page
    has no committees section, gets one row of six cells in which the
    group is missing, where the placeholder row has seven cells and the
    group in the fourth. *)
Theorem deputy_placeholder_drops_group :
  rows_of (ParliamentScraper.process_deputy join_rooted
             ParliamentScraper.default_base_url
             (Examples.always Examples.bare_page) Examples.ion_pop_cached)
  = [[lit "Ion Pop";
      lit "https://cdep.ro/pls/parlam/structura2015.mp?idm=123";
      lit "123"; []; []; []]] /\
  Spec.deputy_placeholder Examples.ion_pop_cached
  = [lit "Ion Pop";
     lit "https://cdep.ro/pls/parlam/structura2015.mp?idm=123";
     lit "123"; lit "PSD"; []; []; []].
Proof. split; vm_compute; reflexivity. Qed.

(** ** Records without a detail file *)

Section Runs.

Variable is_decimal : N -> bool.
Variable urljoin : pystr -> pystr -> option pystr.
Variable base_url : pystr.
Variable use_cache : bool.
Variable path_exists : nat -> pystr -> bool.
Variable fetch_ok : nat -> pystr -> bool.
Variable read_page : pystr -> option (list node).

Let deputies_run :=
  ParliamentScraper.process_all is_decimal urljoin base_url use_cache
    path_exists fetch_ok read_page.
Let senators_run :=
  SenatorsScraper.process_all urljoin base_url use_cache path_exists fetch_ok
    read_page.
Let process_deputy := ParliamentScraper.process_deputy urljoin base_url read_page.
Let process_senator := SenatorsScraper.process_senator urljoin base_url read_page.

Lemma deputy_download_no_rows (ds : list ParliamentScraper.deputy) (i : nat) :
  rows_of (snd (ParliamentScraper.download_from use_cache path_exists
                  fetch_ok i ds)) = [].
Proof.
  revert i; induction ds as [|d ds IH]; intros i; simpl; [reflexivity|].
  specialize (IH (S i)).
  destruct (ParliamentScraper.download_from use_cache path_exists fetch_ok
              (S i) ds) as [rest evs].
  destruct use_cache; simpl in *; exact IH.
Qed.

Lemma senator_download_no_rows (ss : list SenatorsScraper.senator) (i : nat) :
  rows_of (snd (SenatorsScraper.download_from use_cache path_exists
                  fetch_ok i ss)) = [].
Proof.
  revert i; induction ss as [|s ss IH]; intros i; simpl; [reflexivity|].
  specialize (IH (S i)).
  destruct (SenatorsScraper.download_from use_cache path_exists fetch_ok
              (S i) ss) as [rest evs].
  destruct use_cache; [destruct (path_exists i _)|]; simpl in *; exact IH.
Qed.

Lemma rows_of_flat_map (A : Type) (f : A -> list event) (l : list A) :
  rows_of (flat_map f l) = flat_map (fun x => rows_of (f x)) l.
Proof.
  induction l as [|x l IH]; simpl; [reflexivity|].
  now rewrite rows_of_app, IH.
Qed.

(** C1 as the code has it: a record without a detail file gives no event
    at all, so no row; a record with one gives at least one row; and the
    rows of a run are the header followed by the rows of the records, in
    listing order. *)
Theorem record_without_detail_has_no_row :
  forall (d : ParliamentScraper.deputy) (s : SenatorsScraper.senator)
         (doc : list node),
    (ParliamentScraper.local_file d = None -> process_deputy d = []) /\
    (SenatorsScraper.local_file s = None -> process_senator s = []) /\
    (ParliamentScraper.local_file d <> None ->
     rows_of (process_deputy d) <> []) /\
    (SenatorsScraper.local_file s <> None ->
     rows_of (process_senator s) <> []) /\
    rows_of (deputies_run doc) =
      match ParliamentScraper.extract_deputies_from_file is_decimal doc with
      | [] => []
      | deputies =>
          ParliamentScraper.header ::
          flat_map (fun d => rows_of (process_deputy d))
            (fst (ParliamentScraper.download_deputy_pages use_cache
                    path_exists fetch_ok deputies))
      end /\
    rows_of (senators_run doc) =
      match SenatorsScraper.extract_senators_from_file base_url doc with
      | [] => []
      | senators =>
          SenatorsScraper.header ::
          flat_map (fun s => rows_of (process_senator s))
            (fst (SenatorsScraper.download_senator_pages use_cache
                    path_exists fetch_ok senators))
      end.
Proof.
  intros d s doc. repeat split.
  - intros H. unfold process_deputy, ParliamentScraper.process_deputy.
    now rewrite H.
  - intros H. unfold process_senator, SenatorsScraper.process_senator.
    now rewrite H.
  - intros H. unfold process_deputy, ParliamentScraper.process_deputy.
    destruct (ParliamentScraper.local_file d) as [f|]; [|contradiction].
    cbn [rows_of flat_map app]. fold (rows_of (map WriteRow
      (ParliamentScraper.emit d
         (ParliamentScraper.parse_deputy_committees urljoin base_url
            read_page f)))).
    rewrite rows_of_write.
    destruct (ParliamentScraper.parse_deputy_committees _ _ _ f);
      discriminate.
  - intros H. unfold process_senator, SenatorsScraper.process_senator.
    destruct (SenatorsScraper.local_file s) as [f|]; [|contradiction].
    cbn [rows_of flat_map app]. fold (rows_of (map WriteRow
      (SenatorsScraper.emit s
         (SenatorsScraper.parse_senator_committees urljoin base_url
            read_page f)))).
    rewrite rows_of_write.
    destruct (SenatorsScraper.parse_senator_committees _ _ _ f);
      discriminate.
  - unfold deputies_run, ParliamentScraper.process_all,
      ParliamentScraper.download_deputy_pages.
    destruct (ParliamentScraper.extract_deputies_from_file is_decimal doc)
      as [|d0 ds]; [reflexivity|].
    pose proof (deputy_download_no_rows (d0 :: ds) 0) as E.
    destruct (ParliamentScraper.download_from use_cache path_exists fetch_ok
                0 (d0 :: ds)) as [rest evs].
    cbn [fst snd] in *. rewrite rows_of_app, E. cbn [app].
    change (rows_of (OpenCsv :: WriteRow ?h :: ?l)) with (h :: rows_of l).
    now rewrite rows_of_flat_map.
  - unfold senators_run, SenatorsScraper.process_all,
      SenatorsScraper.download_senator_pages.
    destruct (SenatorsScraper.extract_senators_from_file base_url doc)
      as [|s0 ss]; [reflexivity|].
    pose proof (senator_download_no_rows (s0 :: ss) 0) as E.
    destruct (SenatorsScraper.download_from use_cache path_exists fetch_ok
                0 (s0 :: ss)) as [rest evs].
    cbn [fst snd] in *. rewrite rows_of_app, E. cbn [app].
    change (rows_of (OpenCsv :: WriteRow ?h :: ?l)) with (h :: rows_of l).
    now rewrite rows_of_flat_map.
Qed.

End Runs.

(** C1 as the specification words it fails: with no page to be had, the
    listing gives the senator [ab-12] and the deputy [123], and the output
    of either run holds the header and nothing else. *)
Lemma record_without_detail_is_not_written :
  map SenatorsScraper.id
    (SenatorsScraper.extract_senators_from_file
       SenatorsScraper.default_base_url [Examples.card_maria])
  = [lit "ab-12"] /\
  rows_of (SenatorsScraper.process_all join_rooted
             SenatorsScraper.default_base_url false Examples.nothing_exists
             Examples.nothing_loads Examples.nothing_readable
             [Examples.card_maria])
  = [SenatorsScraper.header] /\
  map ParliamentScraper.id
    (ParliamentScraper.extract_deputies_from_file ascii_digit
       (Examples.listing [Examples.row_ion_pop]))
  = [lit "123"] /\
  rows_of (ParliamentScraper.process_all ascii_digit join_rooted
             ParliamentScraper.default_base_url true Examples.nothing_exists
             Examples.nothing_loads Examples.nothing_readable
             (Examples.listing [Examples.row_ion_pop]))
  = [ParliamentScraper.header].
Proof. repeat split; vm_compute; reflexivity. Qed.

Lemma record_without_detail_has_no_row_witness :
  ParliamentScraper.process_deputy join_rooted
    ParliamentScraper.default_base_url Examples.nothing_readable
    Examples.ion_pop = [] /\
  rows_of (ParliamentScraper.process_deputy join_rooted
             ParliamentScraper.default_base_url Examples.nothing_readable
             Examples.ion_pop_cached) <> [].
Proof.
  pose (T := @record_without_detail_has_no_row ascii_digit join_rooted
               ParliamentScraper.default_base_url true Examples.nothing_exists
               Examples.nothing_loads Examples.nothing_readable).
  split.
  - exact (proj1 (T Examples.ion_pop
                    (SenatorsScraper.mk_senator [] [] [] [] [] [] None) [])
             eq_refl).
  - apply (proj1 (proj2 (proj2 (T Examples.ion_pop_cached
                    (SenatorsScraper.mk_senator [] [] [] [] [] [] None) [])))).
    discriminate.
Defined.

(** ** Listings without a qualifying row or card *)

Section EmptyListing.

Variable is_decimal : N -> bool.
Variable urljoin : pystr -> pystr -> option pystr.
Variable base_url : pystr.
Variable use_cache : bool.
Variable path_exists : nat -> pystr -> bool.
Variable fetch_ok : nat -> pystr -> bool.
Variable read_page : pystr -> option (list node).

Lemma found_qualifies (row : node) (d : ParliamentScraper.deputy) :
  ParliamentScraper.deputy_of_row is_decimal row = ParliamentScraper.Found d ->
  qualifying_row is_decimal row = true.
Proof.
  unfold ParliamentScraper.deputy_of_row, qualifying_row.
  destruct (4 <=? length (find_all (lit "td") row))%nat; [|discriminate].
  destruct (nth_error (find_all (lit "td") row) 1) as [c1|]; [|discriminate].
  destruct (nth_error (find_all (lit "td") row) 3) as [c3|]; [|discriminate].
  destruct (find (lit "a") c1) as [link|]; [|discriminate].
  destruct (attr (lit "href") link) as [href|]; [|discriminate].
  destruct (ParliamentScraper.id_of_href is_decimal href); [|discriminate].
  reflexivity.
Qed.

Lemma rows_without_record (rows : list node) :
  (forall row, In row rows -> qualifying_row is_decimal row = false) ->
  forall ds, ParliamentScraper.deputies_of_rows is_decimal rows = Some ds ->
             ds = [].
Proof.
  induction rows as [|row rows IH]; intros Hq ds; simpl.
  - now intros [= <-].
  - destruct (ParliamentScraper.deputy_of_row is_decimal row) as [| |d] eqn:E.
    + discriminate.
    + apply IH. intros r Hr; apply Hq; now right.
    + apply found_qualifies in E. rewrite Hq in E by now left. discriminate.
Qed.

Lemma cards_without_record (cards : list node) :
  (forall card, In card cards -> qualifying_card card = false) ->
  SenatorsScraper.senators_of_cards base_url cards = [].
Proof.
  induction cards as [|card cards IH]; intros Hq; simpl; [reflexivity|].
  assert (E : SenatorsScraper.senator_of_card base_url card = None).
  { specialize (Hq card (or_introl eq_refl)).
    unfold qualifying_card in Hq. unfold SenatorsScraper.senator_of_card.
    destruct (find (lit "a") card) as [link|]; [|reflexivity].
    destruct (SenatorsScraper.id_of_href _); [discriminate|reflexivity]. }
  rewrite E. apply IH. intros c Hc; apply Hq; now right.
Qed.

Lemma no_qualifying_row_no_deputy (doc : list node) :
  (forall table row,
      In table (soup_find_all (lit "table") doc) ->
      In row (find_all (lit "tr") table) ->
      qualifying_row is_decimal row = false) ->
  ParliamentScraper.extract_deputies_from_file is_decimal doc = [].
Proof.
  intros Hq. unfold ParliamentScraper.extract_deputies_from_file.
  destruct (List.find (ParliamentScraper.is_target)
              (soup_find_all (lit "table") doc)) as [t|] eqn:Ft;
    [|reflexivity].
  apply find_some in Ft as [Hin _].
  destruct (ParliamentScraper.deputies_of_rows is_decimal
              (tl (find_all (lit "tr") t))) as [ds|] eqn:E; [|reflexivity].
  apply (rows_without_record (tl (find_all (lit "tr") t))); [|exact E].
  intros row Hrow. apply (Hq t row Hin).
  destruct (find_all (lit "tr") t); [contradiction|now right].
Qed.

(** C4 as the code has it: a listing in which no row (no card) yields a
    record gives an empty record sequence; the run then does nothing at
    all: no probe, no request, no detail parse, and the output file is not
    created. *)
Theorem empty_listing_ends_the_run :
  forall doc : list node,
    ((forall table row,
         In table (soup_find_all (lit "table") doc) ->
         In row (find_all (lit "tr") table) ->
         qualifying_row is_decimal row = false) ->
     ParliamentScraper.extract_deputies_from_file is_decimal doc = [] /\
     ParliamentScraper.process_all is_decimal urljoin base_url use_cache
       path_exists fetch_ok read_page doc = [] /\
     csv_of (ParliamentScraper.process_all is_decimal urljoin base_url
               use_cache path_exists fetch_ok read_page doc) = None) /\
    ((forall card,
         In card (filter SenatorsScraper.is_card (elements doc)) ->
         qualifying_card card = false) ->
     SenatorsScraper.extract_senators_from_file base_url doc = [] /\
     SenatorsScraper.process_all urljoin base_url use_cache path_exists
       fetch_ok read_page doc = [] /\
     csv_of (SenatorsScraper.process_all urljoin base_url use_cache
               path_exists fetch_ok read_page doc) = None).
Proof.
  intros doc; split; intros Hq.
  - pose proof (no_qualifying_row_no_deputy doc Hq) as E.
    unfold ParliamentScraper.process_all. rewrite E. repeat split.
  - pose proof (cards_without_record _ Hq) as E.
    unfold SenatorsScraper.process_all.
    fold (SenatorsScraper.extract_senators_from_file base_url doc) in E.
    rewrite E. repeat split.
Qed.

End EmptyListing.

(** C4 as the specification words it fails: for a listing whose table has
    only the header row, and for one without cards, no output file
    exists after the run, where the specification expects a file holding
    the header row. *)
Lemma empty_listing_writes_no_file :
  ParliamentScraper.extract_deputies_from_file ascii_digit
    (Examples.listing []) = [] /\
  csv_of (ParliamentScraper.process_all ascii_digit join_rooted
            ParliamentScraper.default_base_url false Examples.nothing_exists
            Examples.nothing_loads Examples.nothing_readable
            (Examples.listing [])) = None /\
  csv_of (SenatorsScraper.process_all join_rooted
            SenatorsScraper.default_base_url false Examples.nothing_exists
            Examples.nothing_loads Examples.nothing_readable
            [Tag (lit "body") [] []]) = None /\
  csv_of [OpenCsv; WriteRow ParliamentScraper.header]
  = Some [ParliamentScraper.header].
Proof. repeat split; vm_compute; reflexivity. Qed.

Lemma empty_listing_ends_the_run_witness :
  (ParliamentScraper.extract_deputies_from_file ascii_digit
     (Examples.listing [Examples.row_without_digits]) = [] /\
   ParliamentScraper.process_all ascii_digit join_rooted
     ParliamentScraper.default_base_url true Examples.all_exist
     Examples.nothing_loads Examples.nothing_readable
     (Examples.listing [Examples.row_without_digits]) = [] /\
   csv_of (ParliamentScraper.process_all ascii_digit join_rooted
     ParliamentScraper.default_base_url true Examples.all_exist
     Examples.nothing_loads Examples.nothing_readable
     (Examples.listing [Examples.row_without_digits])) = None) /\
  (SenatorsScraper.extract_senators_from_file SenatorsScraper.default_base_url
     [Examples.card_without_id] = [] /\
   SenatorsScraper.process_all join_rooted SenatorsScraper.default_base_url
     true Examples.all_exist Examples.nothing_loads Examples.nothing_readable
     [Examples.card_without_id] = [] /\
   csv_of (SenatorsScraper.process_all join_rooted
     SenatorsScraper.default_base_url true Examples.all_exist
     Examples.nothing_loads Examples.nothing_readable
     [Examples.card_without_id]) = None).
Proof.
  split.
  - apply (proj1 (@empty_listing_ends_the_run ascii_digit join_rooted
                    ParliamentScraper.default_base_url true Examples.all_exist
                    Examples.nothing_loads Examples.nothing_readable
                    (Examples.listing [Examples.row_without_digits]))).
    intros table row Ht Hr. vm_compute in Ht. destruct Ht as [<-|[]].
    vm_compute in Hr. destruct Hr as [<-|[<-|[]]]; vm_compute; reflexivity.
  - apply (proj2 (@empty_listing_ends_the_run ascii_digit join_rooted
                    SenatorsScraper.default_base_url true Examples.all_exist
                    Examples.nothing_loads Examples.nothing_readable
                    [Examples.card_without_id])).
    intros card Hc. vm_compute in Hc. destruct Hc as [<-|[]].
    vm_compute; reflexivity.
Defined.

(** ** One malformed item *)

(** A card that gives no record is passed over and the cards after it are
    still read. *)
Lemma bad_card_only_skipped (base_url : pystr) (before after : list node)
      (card : node) :
  SenatorsScraper.senator_of_card base_url card = None ->
  SenatorsScraper.senators_of_cards base_url (before ++ card :: after) =
  SenatorsScraper.senators_of_cards base_url before ++
  SenatorsScraper.senators_of_cards base_url after.
Proof.
  intros E. induction before as [|c before IH]; simpl.
  - now rewrite E.
  - destruct (SenatorsScraper.senator_of_card base_url c); simpl;
      now rewrite IH.
Qed.

(** C5, lower chamber: between two good rows, a row whose link has no
    [href] empties the whole record set; without that row the listing
    gives the deputies 123 and 77.  In the upper chamber a card without an
    id between two good cards is the only one left out. *)
Theorem row_without_href_empties_the_listing :
  map ParliamentScraper.id
    (ParliamentScraper.extract_deputies_from_file ascii_digit
       (Examples.listing [Examples.row_ion_pop; Examples.row_ana_dinu]))
  = [lit "123"; lit "77"] /\
  ParliamentScraper.extract_deputies_from_file ascii_digit
    (Examples.listing [Examples.row_ion_pop; Examples.row_without_href;
                       Examples.row_ana_dinu])
  = [] /\
  map SenatorsScraper.id
    (SenatorsScraper.extract_senators_from_file
       SenatorsScraper.default_base_url
       [Examples.card_maria; Examples.card_without_id; Examples.card_dan])
  = [lit "ab-12"; lit "cd-34"].
Proof. repeat split; vm_compute; reflexivity. Qed.

(** ** Witnesses for the emitter and the id patterns *)

Lemma one_row_per_association_witness :
  rows_of (ParliamentScraper.process_deputy join_rooted
             ParliamentScraper.default_base_url
             (Examples.always (Examples.deputy_page Examples.two_committees))
             Examples.ion_pop_cached)
  = map (fun c => Spec.deputy_fields Examples.ion_pop_cached
                  ++ Spec.deputy_committee_fields c)
        (ParliamentScraper.parse_deputy_committees join_rooted
           ParliamentScraper.default_base_url
           (Examples.always (Examples.deputy_page Examples.two_committees))
           Examples.ion_pop_file) /\
  length (rows_of (ParliamentScraper.process_deputy join_rooted
             ParliamentScraper.default_base_url
             (Examples.always (Examples.deputy_page Examples.two_committees))
             Examples.ion_pop_cached)) = 2.
Proof.
  destruct (proj1 (@one_row_per_association join_rooted
                     ParliamentScraper.default_base_url
                     (Examples.always
                        (Examples.deputy_page Examples.two_committees))
                     Examples.ion_pop_cached
                     (SenatorsScraper.mk_senator [] [] [] [] [] [] None)
                     Examples.ion_pop_file) eq_refl) as [Hrows Hlen].
  - vm_compute; discriminate.
  - split; [exact Hrows|]. rewrite Hlen. vm_compute; reflexivity.
Defined.

Lemma profile_url_roundtrip_witness :
  ParliamentScraper.id_of_href ascii_digit
    (ParliamentScraper.profile_url (lit "123")) = Some (lit "123") /\
  SenatorsScraper.id_of_href
    (SenatorsScraper.profile_url SenatorsScraper.default_base_url
       (lit "ab-12")) = Some (lit "ab-12").
Proof.
  split.
  - apply (proj1 (profile_url_roundtrip ascii_digit
      (lit "https://cdep.ro/pls/parlam/structura2015.mp?idm=123&cam=2&leg=2020")
      (lit "123"))).
    vm_compute; reflexivity.
  - apply (proj2 (profile_url_roundtrip ascii_digit
      (lit "FisaSenator.aspx?ParlamentarID=ab-12&x=1") (lit "ab-12"))).
    vm_compute; reflexivity.
Defined.

(** ** The committees paragraph of the lower chamber *)

Section Walk.

Variable urljoin : pystr -> pystr -> option pystr.
Variable base_url : pystr.

Let walk := ParliamentScraper.walk_contents urljoin base_url.

Lemma set_last_role_snoc (text : pystr)
      (cs : list ParliamentScraper.committee) (c : ParliamentScraper.committee) :
  ParliamentScraper.set_last_role text (cs ++ [c]) =
  cs ++ [ParliamentScraper.add_role text c].
Proof.
  induction cs as [|c0 cs IH]; simpl; [reflexivity|].
  rewrite IH. destruct (cs ++ [c]) eqn:E; [|reflexivity].
  now destruct cs.
Qed.

Lemma nonempty_set_last_role (text : pystr)
      (cs : list ParliamentScraper.committee) :
  nonempty (ParliamentScraper.set_last_role text cs) = nonempty cs.
Proof. destruct cs as [|c [|c' cs]]; reflexivity. Qed.

Lemma set_last_role_cons (text : pystr) (c : ParliamentScraper.committee)
      (cs : list ParliamentScraper.committee) :
  nonempty cs = true ->
  ParliamentScraper.set_last_role text (c :: cs) =
  c :: ParliamentScraper.set_last_role text cs.
Proof. destruct cs; [discriminate|reflexivity]. Qed.

Lemma set_last_role_twice (t1 t2 : pystr)
      (cs : list ParliamentScraper.committee) :
  ParliamentScraper.set_last_role t2 (ParliamentScraper.set_last_role t1 cs)
  = ParliamentScraper.set_last_role t2 cs.
Proof.
  induction cs as [|c cs IH]; [reflexivity|].
  destruct (nonempty cs) eqn:E.
  - rewrite (set_last_role_cons t1 c cs E).
    rewrite set_last_role_cons by now rewrite nonempty_set_last_role.
    now rewrite IH, (set_last_role_cons t2 c cs E).
  - destruct cs; [reflexivity|discriminate].
Qed.

Lemma nonempty_amend (r : option pystr)
      (cs : list ParliamentScraper.committee) :
  nonempty (amend r cs) = nonempty cs.
Proof. destruct r; [apply nonempty_set_last_role|reflexivity]. Qed.

Lemma amend_nil (r : option pystr) : amend r [] = [].
Proof. now destruct r. Qed.

Lemma set_last_role_amend (text : pystr) (r : option pystr)
      (cs : list ParliamentScraper.committee) :
  ParliamentScraper.set_last_role text (amend r cs) = amend (Some text) cs.
Proof. destruct r; simpl; [apply set_last_role_twice|reflexivity]. Qed.

(** The walk from any state: the associations met so far keep their
    roles, except the latest, which takes the role the next text children
    leave; the anchors that follow add theirs. *)
Lemma walk_from (els : list node) :
  forall (r : option pystr) (acc : list ParliamentScraper.committee),
    walk els (amend r acc) =
    match associations urljoin base_url els with
    | Some new => Some (amend (role_scan els r) acc ++ new)
    | None => None
    end.
Proof.
  unfold walk.
  induction els as [|e els IH]; intros r acc.
  - simpl. now rewrite app_nil_r.
  - destruct e as [nm attrs cs|s|s].
    + cbn [ParliamentScraper.walk_contents associations role_scan].
      destruct (PyStr.eqb nm (lit "a")); [|apply IH].
      destruct (get_attr (lit "href") attrs) as [href|]; [|reflexivity].
      destruct (urljoin base_url href) as [u|]; [|reflexivity].
      specialize (IH None (amend r acc ++
        [{| ParliamentScraper.c_name := strip (get_text (Tag nm attrs cs));
            ParliamentScraper.c_url := u;
            ParliamentScraper.c_role := None |}])).
      change (amend None ?x) with x in IH. rewrite IH.
      destruct (associations urljoin base_url els) as [new|]; [|reflexivity].
      f_equal.
      destruct (role_scan els None) as [t|]; cbn [amend].
      * rewrite set_last_role_snoc, <- app_assoc. reflexivity.
      * rewrite <- app_assoc. reflexivity.
    + cbn [ParliamentScraper.walk_contents associations role_scan].
      fold (trim_role s). rewrite nonempty_amend.
      destruct (nonempty (trim_role s)) eqn:Et; cbn [andb].
      * destruct acc as [|c acc].
        -- cbn [nonempty]. rewrite amend_nil.
           rewrite <- (amend_nil r) at 1. rewrite IH, !amend_nil.
           reflexivity.
        -- cbn [nonempty]. rewrite set_last_role_amend. apply IH.
      * apply IH.
    + cbn [ParliamentScraper.walk_contents associations role_scan].
      fold (trim_role s). rewrite nonempty_amend.
      destruct (nonempty (trim_role s)) eqn:Et; cbn [andb].
      * destruct acc as [|c acc].
        -- cbn [nonempty]. rewrite amend_nil.
           rewrite <- (amend_nil r) at 1. rewrite IH, !amend_nil.
           reflexivity.
        -- cbn [nonempty]. rewrite set_last_role_amend. apply IH.
      * apply IH.
Qed.

End Walk.

(** C7 as the code has it: walking the children of the committees
    paragraph gives one association per anchor child, in document order,
    and none at all when an anchor child has no [href] or its [href]
    cannot be joined; the role of an association is the last text child
    between its anchor and the next one that is not empty once trimmed,
    so text before the first anchor and text that trims to nothing change
    nothing.  For two anchors and one text after the second that does not
    trim to nothing, the result is two associations, the first without a
    role and the second with the trimmed text as its role. *)
Theorem walk_gives_associations :
  forall (urljoin : pystr -> pystr -> option pystr) (base_url : pystr)
         (els : list node),
    ParliamentScraper.walk_contents urljoin base_url els [] =
      associations urljoin base_url els /\
    forall (attrs1 attrs2 : list (pystr * pystr)) (cs1 cs2 : list node)
           (h1 h2 u1 u2 s : pystr),
      get_attr (lit "href") attrs1 = Some h1 ->
      get_attr (lit "href") attrs2 = Some h2 ->
      urljoin base_url h1 = Some u1 ->
      urljoin base_url h2 = Some u2 ->
      trim_role s <> [] ->
      ParliamentScraper.walk_contents urljoin base_url
        [Tag (lit "a") attrs1 cs1; Tag (lit "a") attrs2 cs2; Text s] [] =
      Some [ {| ParliamentScraper.c_name :=
                  strip (get_text (Tag (lit "a") attrs1 cs1));
                ParliamentScraper.c_url := u1;
                ParliamentScraper.c_role := None |};
             {| ParliamentScraper.c_name :=
                  strip (get_text (Tag (lit "a") attrs2 cs2));
                ParliamentScraper.c_url := u2;
                ParliamentScraper.c_role := Some (trim_role s) |} ].
Proof.
  intros urljoin base_url els.
  assert (W : forall l, ParliamentScraper.walk_contents urljoin base_url l []
                        = associations urljoin base_url l).
  { intros l. pose proof (walk_from urljoin base_url l None []) as H.
    cbn [amend] in H. rewrite H.
    destruct (associations urljoin base_url l); [|reflexivity].
    now rewrite amend_nil. }
  split; [apply W|].
  intros attrs1 attrs2 cs1 cs2 h1 h2 u1 u2 s H1 H2 U1 U2 Hs.
  rewrite W. cbn [associations role_scan].
  change (PyStr.eqb (lit "a") (lit "a")) with true. cbn iota.
  rewrite H1, H2, U1, U2.
  destruct (trim_role s) eqn:E; [contradiction|]. reflexivity.
Qed.

Lemma walk_gives_associations_witness :
  ParliamentScraper.walk_contents join_rooted
    ParliamentScraper.default_base_url
    [Examples.anchor (lit "/co?idc=1") (lit "Comisia juridica");
     Examples.anchor (lit "/co?idc=2") (lit "Comisia pentru buget");
     Text (lit " - Vicepresedinte ")] [] =
  Some [ {| ParliamentScraper.c_name := lit "Comisia juridica";
            ParliamentScraper.c_url := lit "http://www.cdep.ro/co?idc=1";
            ParliamentScraper.c_role := None |};
         {| ParliamentScraper.c_name := lit "Comisia pentru buget";
            ParliamentScraper.c_url := lit "http://www.cdep.ro/co?idc=2";
            ParliamentScraper.c_role := Some (lit "Vicepresedinte") |} ].
Proof.
  exact (proj2 (walk_gives_associations join_rooted
                  ParliamentScraper.default_base_url [])
           [(lit "href", lit "/co?idc=1")] [(lit "href", lit "/co?idc=2")]
           [Text (lit "Comisia juridica")]
           [Text (lit "Comisia pentru buget")]
           (lit "/co?idc=1") (lit "/co?idc=2")
           (lit "http://www.cdep.ro/co?idc=1")
           (lit "http://www.cdep.ro/co?idc=2")
           (lit " - Vicepresedinte ")
           eq_refl eq_refl eq_refl eq_refl
           (fun H => match H in _ = l return
                             match l with [] => False | _ => True end
                     with eq_refl => I end)).
Defined.

(** C7 as the specification words it fails.  After an anchor and its role,
    a line break and a newline follow: the code keeps the role, where
    attaching every trimmed text child would leave the empty string.  And
    an anchor child without [href] does not start an association: the page
    gives none at all. *)
Lemma blank_text_keeps_the_role :
  option_map (map ParliamentScraper.role_or_empty)
    (ParliamentScraper.walk_contents join_rooted
       ParliamentScraper.default_base_url Examples.role_then_newline [])
  = Some [lit "Presedinte"] /\
  option_map (map ParliamentScraper.role_or_empty)
    (walk_as_claimed join_rooted ParliamentScraper.default_base_url
       Examples.role_then_newline [])
  = Some [[]] /\
  ParliamentScraper.committees_of_page join_rooted
    ParliamentScraper.default_base_url
    (Examples.deputy_page Examples.anchor_without_href) = [].
Proof. repeat split; vm_compute; reflexivity. Qed.

(** ** Substrings *)

Lemma strip_prefix_some (l s r : pystr) :
  strip_prefix l s = Some r <-> s = l ++ r.
Proof.
  revert s; induction l as [|a l IH]; intros s; simpl.
  - destruct s; split; congruence.
  - destruct s as [|b s]; [split; discriminate|].
    destruct (N.eqb_spec a b) as [->|Hab].
    + rewrite IH. split; [now intros ->|now intros [= ->]].
    + split; [discriminate|]. intros [= E _]. now elim Hab.
Qed.

Lemma contains_unfold (l s : pystr) :
  contains l s =
  starts_with l s || match s with [] => false | _ :: s' => contains l s' end.
Proof. destruct s; reflexivity. Qed.

Lemma contains_split (l s : pystr) :
  contains l s = true <-> exists a b, s = a ++ l ++ b.
Proof.
  split.
  - induction s as [|c s IH]; rewrite contains_unfold; unfold starts_with;
      intros H; apply orb_true_iff in H as [H|H].
    + destruct (strip_prefix l []) as [r|] eqn:E; [|discriminate].
      apply strip_prefix_some in E. now exists [], r.
    + discriminate.
    + destruct (strip_prefix l (c :: s)) as [r|] eqn:E; [|discriminate].
      apply strip_prefix_some in E. now exists [], r.
    + destruct (IH H) as (a & b & ->). now exists (c :: a), b.
  - intros (a & b & ->). induction a as [|c a IH]; rewrite contains_unfold.
    + unfold starts_with. cbn [app]. now rewrite strip_prefix_app.
    + cbn [app]. rewrite IH. apply orb_true_r.
Qed.

Lemma contains_map (f : N -> N) (l s : pystr) :
  contains l s = true -> contains (map f l) (map f s) = true.
Proof.
  rewrite !contains_split. intros (a & b & ->).
  exists (map f a), (map f b). now rewrite !map_app.
Qed.

Lemma drop_while_before (p : N -> bool) (x y : pystr) (c : N) :
  p c = false -> exists x', drop_while p (x ++ c :: y) = x' ++ c :: y.
Proof.
  intros Hc. induction x as [|a x [x' IH]]; simpl.
  - rewrite Hc. now exists [].
  - destruct (p a); [now exists x'|now exists (a :: x)].
Qed.

(** Trimming keeps an occurrence of a word that neither begins nor ends
    with a trimmed character. *)
Lemma contains_strip_by (p : N -> bool) (c d : N) (mid s : pystr) :
  p c = false -> p d = false ->
  contains (c :: mid ++ [d]) s = true ->
  contains (c :: mid ++ [d]) (strip_by p s) = true.
Proof.
  intros Hc Hd. rewrite !contains_split. intros (a & b & ->).
  unfold strip_by, lstrip_by, rstrip_by. cbn [app].
  destruct (drop_while_before p a ((mid ++ [d]) ++ b) c Hc) as [a' ->].
  replace (rev (a' ++ c :: (mid ++ [d]) ++ b))
    with (rev b ++ d :: rev mid ++ c :: rev a').
  2:{ rewrite !rev_app_distr. cbn [rev app]. rewrite !rev_app_distr.
      cbn [rev app]. rewrite <- !app_assoc. reflexivity. }
  destruct (drop_while_before p (rev b) (rev mid ++ c :: rev a') d Hd)
    as [b' ->].
  exists a', (rev b').
  rewrite !rev_app_distr. cbn [rev app]. rewrite !rev_app_distr.
  cbn [rev app]. rewrite !rev_involutive, <- !app_assoc. reflexivity.
Qed.

Lemma last_where_some (p : pystr -> bool) (lines : list pystr) (l : pystr) :
  last_where p lines = Some l -> p l = true /\ In l lines.
Proof.
  induction lines as [|x lines IH]; simpl; [discriminate|].
  destruct (last_where p lines) as [y|].
  - intros [= <-]. destruct (IH eq_refl); auto.
  - destruct (p x) eqn:E; [|discriminate]. intros [= <-]; auto.
Qed.

Lemma last_where_none (p : pystr -> bool) (lines : list pystr) :
  (forall l, In l lines -> p l = false) -> last_where p lines = None.
Proof.
  induction lines as [|x lines IH]; intros H; simpl; [reflexivity|].
  rewrite IH by (intros l Hl; apply H; now right).
  now rewrite (H x (or_introl eq_refl)).
Qed.

(** ** The labelled lines of an upper-chamber card *)

(** The scan from any state: each variable holds what the last line of its
    kind gives, or what it held before. *)
Lemma scan_from (lines : list pystr) :
  forall acc : SenatorsScraper.scanned,
    fold_left SenatorsScraper.scan_line lines acc =
    {| SenatorsScraper.s_birth_date :=
         match last_where is_birth_line lines with
         | Some l => strip (replace SenatorsScraper.birth_label [] l)
         | None => SenatorsScraper.s_birth_date acc
         end;
       SenatorsScraper.s_constituency :=
         match last_where is_constituency_line lines with
         | Some l => strip l
         | None => SenatorsScraper.s_constituency acc
         end;
       SenatorsScraper.s_group :=
         match last_where is_group_line lines with
         | Some l => strip l
         | None => SenatorsScraper.s_group acc
         end |}.
Proof.
  induction lines as [|x lines IH]; intros acc.
  - now destruct acc.
  - cbn [fold_left last_where]. rewrite IH.
    unfold SenatorsScraper.scan_line, is_birth_line, is_constituency_line,
      is_group_line.
    destruct (last_where (fun l => contains SenatorsScraper.birth_label l)
                lines),
      (last_where (fun l => negb (contains SenatorsScraper.birth_label l) &&
                            contains SenatorsScraper.constituency_label l)
         lines),
      (last_where (fun l => negb (contains SenatorsScraper.birth_label l) &&
                            negb (contains SenatorsScraper.constituency_label l)
                            && contains SenatorsScraper.group_label l) lines);
      destruct (contains SenatorsScraper.birth_label x),
        (contains SenatorsScraper.constituency_label x),
        (contains SenatorsScraper.group_label x); reflexivity.
Qed.

Lemma stored_line_keeps_label (c d : N) (mid l : pystr) :
  is_space c = false -> is_space d = false ->
  map fix_char (c :: mid ++ [d]) = c :: mid ++ [d] ->
  contains (c :: mid ++ [d]) l = true ->
  contains (c :: mid ++ [d]) (fix_romanian_str (strip l)) = true.
Proof.
  intros Hc Hd Hfix H. rewrite fix_romanian_str_map.
  pose proof (contains_map fix_char _ _
                (contains_strip_by is_space c d mid l Hc Hd H)) as K.
  now rewrite Hfix in K.
Qed.

(** C3 as the code has it.  For a card that gives a record, over the
    non-empty trimmed lines of its text: the birth date is the last line
    containing the birth label, with every occurrence of the label removed
    and then trimmed; the constituency (the group) is the whole of the
    last line that contains its label and none of the labels tested before
    it, trimmed and normalized, so that the label is still in the stored
    value; where no line contains a label its field is empty. *)
Theorem card_fields_from_labelled_lines :
  forall (base_url : pystr) (card : node) (s : SenatorsScraper.senator),
    SenatorsScraper.senator_of_card base_url card = Some s ->
    (SenatorsScraper.birth_date s =
       match last_where is_birth_line
               (SenatorsScraper.text_lines (get_text card)) with
       | Some l => strip (replace SenatorsScraper.birth_label [] l)
       | None => []
       end) /\
    (SenatorsScraper.constituency s =
       match last_where is_constituency_line
               (SenatorsScraper.text_lines (get_text card)) with
       | Some l => fix_romanian_str (strip l)
       | None => []
       end) /\
    (SenatorsScraper.group s =
       match last_where is_group_line
               (SenatorsScraper.text_lines (get_text card)) with
       | Some l => fix_romanian_str (strip l)
       | None => []
       end) /\
    (SenatorsScraper.constituency s <> [] ->
     contains SenatorsScraper.constituency_label
       (SenatorsScraper.constituency s) = true) /\
    (SenatorsScraper.group s <> [] ->
     contains SenatorsScraper.group_label (SenatorsScraper.group s) = true) /\
    ((forall l, In l (SenatorsScraper.text_lines (get_text card)) ->
                contains SenatorsScraper.birth_label l = false) ->
     SenatorsScraper.birth_date s = []) /\
    ((forall l, In l (SenatorsScraper.text_lines (get_text card)) ->
                contains SenatorsScraper.constituency_label l = false) ->
     SenatorsScraper.constituency s = []) /\
    ((forall l, In l (SenatorsScraper.text_lines (get_text card)) ->
                contains SenatorsScraper.group_label l = false) ->
     SenatorsScraper.group s = []).
Proof.
  intros base_url card s H.
  unfold SenatorsScraper.senator_of_card in H.
  destruct (find (lit "a") card) as [link|]; [|discriminate].
  destruct (SenatorsScraper.id_of_href _) as [i|]; [|discriminate].
  injection H as <-. cbn [SenatorsScraper.birth_date
    SenatorsScraper.constituency SenatorsScraper.group].
  unfold SenatorsScraper.scan_lines. rewrite scan_from.
  cbn [SenatorsScraper.s_birth_date SenatorsScraper.s_constituency
       SenatorsScraper.s_group].
  set (lines := SenatorsScraper.text_lines (get_text card)).
  assert (F0 : fix_romanian_str [] = []) by reflexivity.
  repeat split.
  - destruct (last_where is_constituency_line lines); [reflexivity|exact F0].
  - destruct (last_where is_group_line lines); [reflexivity|exact F0].
  - destruct (last_where is_constituency_line lines) as [l|] eqn:E;
      [intros _|now rewrite F0].
    apply last_where_some in E as [E _]. unfold is_constituency_line in E.
    apply andb_true_iff in E as [_ E].
    apply (@stored_line_keeps_label 67 259
             (lit "ircumscrip" ++ [355%N] ++ lit "ia electoral") l);
      try reflexivity; exact E.
  - destruct (last_where is_group_line lines) as [l|] eqn:E;
      [intros _|now rewrite F0].
    apply last_where_some in E as [E _]. unfold is_group_line in E.
    apply andb_true_iff in E as [_ E].
    apply (@stored_line_keeps_label 71 114 (lit "rupul parlamenta") l);
      try reflexivity; exact E.
  - intros Hno. now rewrite last_where_none.
  - intros Hno. rewrite last_where_none; [exact F0|].
    intros l Hl. unfold is_constituency_line. rewrite (Hno l Hl).
    apply andb_false_r.
  - intros Hno. rewrite last_where_none; [exact F0|].
    intros l Hl. unfold is_group_line. rewrite (Hno l Hl).
    apply andb_false_r.
Qed.

Lemma card_fields_from_labelled_lines_witness :
  SenatorsScraper.birth_date Examples.maria = lit "01.02.1970" /\
  contains SenatorsScraper.constituency_label
    (SenatorsScraper.constituency Examples.maria) = true /\
  contains SenatorsScraper.group_label
    (SenatorsScraper.group Examples.maria) = true.
Proof.
  assert (H : SenatorsScraper.senator_of_card SenatorsScraper.default_base_url
                Examples.card_maria = Some Examples.maria)
    by (vm_compute; reflexivity).
  destruct (card_fields_from_labelled_lines _ _ H)
    as (Hb & _ & _ & Hc & Hg & _).
  split; [|split].
  - rewrite Hb. vm_compute; reflexivity.
  - apply Hc. vm_compute; discriminate.
  - apply Hg. vm_compute; discriminate.
Defined.

(** C3 as the specification words it fails: from the card of Maria Ene
    the stored group and constituency are the whole lines, labels
    included, where the text after the label would be [PSD] and
    [nr.13 CLUJ]. *)
Lemma stored_field_keeps_its_label :
  map SenatorsScraper.group
    (SenatorsScraper.extract_senators_from_file
       SenatorsScraper.default_base_url [Examples.card_maria])
  = [lit "Grupul parlamentar PSD"] /\
  text_after_label SenatorsScraper.group_label (lit "Grupul parlamentar PSD")
  = lit "PSD" /\
  map SenatorsScraper.constituency
    (SenatorsScraper.extract_senators_from_file
       SenatorsScraper.default_base_url [Examples.card_maria])
  = [SenatorsScraper.constituency_label ++ lit " nr.13 CLUJ"] /\
  text_after_label SenatorsScraper.constituency_label
    (SenatorsScraper.constituency_label ++ lit " nr.13 CLUJ")
  = lit "nr.13 CLUJ".
Proof. repeat split; vm_compute; reflexivity. Qed.

(** ** The scan after the committees heading of the upper chamber *)

Section Scan.

Variable urljoin : pystr -> pystr -> option pystr.
Variable base_url : pystr.

Lemma is_tag_name (name nm : pystr) (attrs : list (pystr * pystr))
      (cs : list node) :
  is_tag name (Tag nm attrs cs) = PyStr.eqb nm name.
Proof. reflexivity. Qed.

(** Without an [h5] among them, the elements are scanned to the last one
    and every anchor is turned into an association. *)
Lemma scan_links_to_the_end (following : list node) :
  (forall n, In n following -> is_tag (lit "h5") n = false) ->
  SenatorsScraper.scan_links urljoin base_url following =
  all_or_nothing
    (map (link_of urljoin base_url) (filter (is_tag (lit "a")) following)).
Proof.
  induction following as [|e following IH]; intros Hno; [reflexivity|].
  assert (IH' := IH (fun n Hn => Hno n (or_intror Hn))).
  pose proof (Hno e (or_introl eq_refl)) as He.
  destruct e as [nm attrs cs|s|s]; cbn [SenatorsScraper.scan_links filter];
    try exact IH'.
  rewrite is_tag_name in He. rewrite He, is_tag_name.
  destruct (PyStr.eqb nm (lit "a")); [|exact IH'].
  cbn [map all_or_nothing]. unfold link_of at 1. cbn [attr].
  destruct (get_attr (lit "href") attrs) as [href|]; [|reflexivity].
  destruct (urljoin base_url href) as [u|]; [|reflexivity].
  now rewrite IH'.
Qed.

Lemma all_or_nothing_length (A : Type) (l : list (option A)) (xs : list A) :
  all_or_nothing l = Some xs -> length xs = length l.
Proof.
  revert xs; induction l as [|[x|] l IH]; intros xs; simpl.
  - now intros [= <-].
  - destruct (all_or_nothing l) as [ys|]; [|discriminate].
    intros [= <-]. simpl. now rewrite (IH ys eq_refl).
  - discriminate.
Qed.

Lemma all_or_nothing_some (A : Type) (l : list (option A)) :
  (forall o, In o l -> o <> None) -> exists xs, all_or_nothing l = Some xs.
Proof.
  induction l as [|[x|] l IH]; intros H; simpl.
  - now exists [].
  - destruct IH as [xs ->]; [intros o Ho; apply H; now right|].
    now exists (x :: xs).
  - now elim (H None (or_introl eq_refl)).
Qed.

Lemma all_or_nothing_none (A : Type) (l : list (option A)) :
  In None l -> all_or_nothing l = None.
Proof.
  induction l as [|[x|] l IH]; simpl; intros H.
  - contradiction.
  - destruct H as [H|H]; [discriminate|]. now rewrite (IH H).
  - reflexivity.
Qed.

(** C10 as the code has it: when the heading is found and no [h5] comes
    after it, the scan reaches the end of the document; the result holds
    one association for every anchor after the heading, in document
    order, as long as each of these anchors has an [href] that [urljoin]
    accepts, and it is empty as soon as one of them has not. *)
Theorem scan_without_closing_heading :
  forall (doc following : list node),
    after_first SenatorsScraper.is_heading (elements doc) = Some following ->
    (forall n, In n following -> is_tag (lit "h5") n = false) ->
    SenatorsScraper.committees_of_page urljoin base_url doc =
      match all_or_nothing
              (map (link_of urljoin base_url)
                   (filter (is_tag (lit "a")) following)) with
      | Some committees => committees
      | None => []
      end /\
    ((forall n, In n (filter (is_tag (lit "a")) following) ->
                link_of urljoin base_url n <> None) ->
     map Some (SenatorsScraper.committees_of_page urljoin base_url doc) =
       map (link_of urljoin base_url) (filter (is_tag (lit "a")) following) /\
     length (SenatorsScraper.committees_of_page urljoin base_url doc) =
       length (filter (is_tag (lit "a")) following)) /\
    ((exists n, In n (filter (is_tag (lit "a")) following) /\
                link_of urljoin base_url n = None) ->
     SenatorsScraper.committees_of_page urljoin base_url doc = []).
Proof.
  intros doc following Hh Hno.
  unfold SenatorsScraper.committees_of_page. rewrite Hh.
  rewrite (scan_links_to_the_end following Hno).
  set (links := map (link_of urljoin base_url)
                    (filter (is_tag (lit "a")) following)).
  split; [reflexivity|split].
  - intros Hall.
    destruct (all_or_nothing_some links) as [xs E].
    { intros o Ho. apply in_map_iff in Ho as (n & <- & Hn). now apply Hall. }
    rewrite E. split.
    + clear - E. revert xs E. induction links as [|[x|] l IH]; intros xs; simpl.
      * now intros [= <-].
      * destruct (all_or_nothing l) as [ys|]; [|discriminate].
        intros [= <-]. simpl. now rewrite (IH ys eq_refl).
      * discriminate.
    + rewrite (all_or_nothing_length _ E). apply length_map.
  - intros (n & Hn & En).
    assert (Hin : In None links).
    { rewrite <- En. now apply in_map. }
    now rewrite (all_or_nothing_none links Hin).
Qed.

End Scan.

Lemma scan_without_closing_heading_witness :
  map SenatorsScraper.c_name
    (SenatorsScraper.committees_of_page join_rooted
       SenatorsScraper.default_base_url
       (Examples.senator_page Examples.committees_then_contact))
  = [lit "Comisia juridica"; lit "Scrie senatorului"] /\
  length (SenatorsScraper.committees_of_page join_rooted
            SenatorsScraper.default_base_url
            (Examples.senator_page Examples.committees_then_contact)) = 2.
Proof.
  assert (Hh : after_first SenatorsScraper.is_heading
                 (elements (Examples.senator_page
                              Examples.committees_then_contact))
               = Some (Text SenatorsScraper.heading_label ::
                       elements Examples.committees_then_contact))
    by (vm_compute; reflexivity).
  destruct (@scan_without_closing_heading join_rooted
              SenatorsScraper.default_base_url _ _ Hh) as (Hall & Hlen & _).
  - intros n Hn. vm_compute in Hn.
    repeat (destruct Hn as [<-|Hn]; [reflexivity|]). contradiction.
  - split.
    + rewrite Hall. vm_compute; reflexivity.
    + rewrite (proj2 (Hlen ltac:(intros n Hn; vm_compute in Hn;
        repeat (destruct Hn as [<-|Hn]; [vm_compute; discriminate|]);
        contradiction))).
      vm_compute; reflexivity.
Defined.

(** C10 as the specification words it fails: after the heading come a
    committee link and an anchor without [href], and no [h5]; the parser
    returns no association, though two anchors follow the heading. *)
Lemma anchor_without_href_empties_the_scan :
  SenatorsScraper.committees_of_page join_rooted
    SenatorsScraper.default_base_url
    (Examples.senator_page Examples.anchor_without_href) = [] /\
  option_map (fun following =>
                (length (filter (is_tag (lit "a")) following),
                 existsb (is_tag (lit "h5")) following))
    (after_first SenatorsScraper.is_heading
       (elements (Examples.senator_page Examples.anchor_without_href)))
  = Some (2, false).
Proof. split; vm_compute; reflexivity. Qed.

(** * Further properties of the code *)

(** ** Trimming *)

Section Trimming.

Variable p : N -> bool.

Lemma drop_while_suffix (s : pystr) :
  exists pre, s = pre ++ drop_while p s /\ forallb p pre = true.
Proof.
  induction s as [|c s (pre & E & Hp)]; simpl.
  - now exists [].
  - destruct (p c) eqn:Hc.
    + exists (c :: pre). simpl. rewrite Hc, Hp. split; [now f_equal|reflexivity].
    + now exists [].
Qed.

Lemma drop_while_head (s : pystr) (c : N) (r : pystr) :
  drop_while p s = c :: r -> p c = false.
Proof.
  induction s as [|a s IH]; simpl; [discriminate|].
  destruct (p a) eqn:Ha; [exact IH|]. now intros [= <- _].
Qed.

Lemma drop_while_fixed (s : pystr) :
  match s with [] => True | c :: _ => p c = false end ->
  drop_while p s = s.
Proof. destruct s as [|c s]; simpl; [reflexivity|]. now intros ->. Qed.

(** What trimming leaves neither begins nor ends with a trimmed
    character. *)
Lemma strip_by_ends (s : pystr) :
  match strip_by p s with [] => True | c :: _ => p c = false end /\
  match rev (strip_by p s) with [] => True | c :: _ => p c = false end.
Proof.
  unfold strip_by, rstrip_by, lstrip_by.
  set (t := drop_while p s).
  destruct (drop_while_suffix (rev t)) as (pre & E & _).
  set (u := drop_while p (rev t)) in *.
  assert (Et : t = rev u ++ rev pre).
  { rewrite <- (rev_involutive t), E, rev_app_distr. reflexivity. }
  split.
  - destruct (rev u) as [|c r] eqn:Eu; [exact I|].
    cbn [app] in Et. apply (drop_while_head s Et).
  - rewrite rev_involutive. destruct u as [|c r] eqn:Eu; [exact I|].
    apply (drop_while_head (rev t) Eu).
Qed.

Lemma strip_by_idempotent (s : pystr) :
  strip_by p (strip_by p s) = strip_by p s.
Proof.
  destruct (strip_by_ends s) as [Hh Hl].
  set (u := strip_by p s) in *.
  unfold strip_by at 1. unfold rstrip_by, lstrip_by.
  rewrite (drop_while_fixed u Hh), (drop_while_fixed (rev u) Hl).
  apply rev_involutive.
Qed.

End Trimming.

(** ** The normalizer, character by character *)

Lemma mis_decoded_spec (c : N) :
  mis_decoded c = ((186 =? c) || (254 =? c) || (222 =? c) || (170 =? c))%N.
Proof.
  unfold mis_decoded, replacements. cbn [existsb fst PyStr.eqb].
  now rewrite !andb_true_r, orb_false_r, !orb_assoc.
Qed.

Lemma fix_char_clean (c : N) : mis_decoded (fix_char c) = false.
Proof.
  rewrite mis_decoded_spec. unfold fix_char.
  destruct (N.eq_dec 186 c) as [<-|H1]; [reflexivity|].
  rewrite (subst1_neq 537 H1).
  destruct (N.eq_dec 254 c) as [<-|H2]; [reflexivity|].
  rewrite (subst1_neq 539 H2).
  destruct (N.eq_dec 222 c) as [<-|H3]; [reflexivity|].
  rewrite (subst1_neq 538 H3).
  destruct (N.eq_dec 170 c) as [<-|H4]; [reflexivity|].
  rewrite (subst1_neq 536 H4).
  apply N.eqb_neq in H1, H2, H3, H4. now rewrite H1, H2, H3, H4.
Qed.

Lemma fix_char_fixed (c : N) : fix_char c = c <-> mis_decoded c = false.
Proof.
  split.
  - intros E. rewrite <- E. apply fix_char_clean.
  - rewrite mis_decoded_spec. intros H.
    apply orb_false_iff in H as [H H4]. apply orb_false_iff in H as [H H3].
    apply orb_false_iff in H as [H1 H2].
    apply N.eqb_neq in H1, H2, H3, H4. unfold fix_char.
    now rewrite (subst1_neq 537 H1), (subst1_neq 539 H2),
      (subst1_neq 538 H3), (subst1_neq 536 H4).
Qed.

Lemma fix_romanian_str_no_mis_decoded (s : pystr) :
  existsb mis_decoded (fix_romanian_str s) = false.
Proof.
  rewrite fix_romanian_str_map.
  induction s as [|c s IH]; simpl; [reflexivity|].
  now rewrite fix_char_clean, IH.
Qed.

(** X1: the normalizer works character by character: it keeps the length
    of the text, and the normalized concatenation of two texts is the
    concatenation of their normalized forms. *)
Theorem fix_romanian_str_length_app :
  forall s t : pystr,
    length (fix_romanian_str s) = length s /\
    fix_romanian_str (s ++ t) = fix_romanian_str s ++ fix_romanian_str t.
Proof.
  intros s t. rewrite !fix_romanian_str_map. split.
  - apply length_map.
  - apply map_app.
Qed.

(** X2: none of the four replaced characters is left in a normalized
    text, and the normalizer leaves a text as it is exactly when the text
    holds none of them. *)
Theorem fix_romanian_str_clean :
  forall s : pystr,
    existsb mis_decoded (fix_romanian_str s) = false /\
    (fix_romanian_str s = s <-> existsb mis_decoded s = false).
Proof.
  intros s. split; [apply fix_romanian_str_no_mis_decoded|].
  rewrite fix_romanian_str_map. induction s as [|c s IH]; simpl; [tauto|].
  rewrite orb_false_iff, <- IH, <- fix_char_fixed. split.
  + now intros [= -> ->].
  + now intros [-> ->].
Qed.


(** ** Where the id comes from *)

Lemma take_drop_while (p : N -> bool) (s : pystr) :
  s = take_while p s ++ drop_while p s.
Proof.
  induction s as [|c s IH]; simpl; [reflexivity|].
  destruct (p c); simpl; [now f_equal|reflexivity].
Qed.

(** X3: an id found by either pattern stands in the link right after the
    literal ([idm=], [ParlamentarID=]); it is not empty, all its
    characters are of the class of the pattern (digits, anything but the
    ampersand), and it is not followed by a further character of the
    class. *)
Theorem id_stands_after_the_literal :
  forall (is_decimal : N -> bool) (href i : pystr),
    (ParliamentScraper.id_of_href is_decimal href = Some i ->
     i <> [] /\ forallb is_decimal i = true /\
     exists a b, href = a ++ lit "idm=" ++ i ++ b /\
                 match b with [] => True | c :: _ => is_decimal c = false end)
    /\
    (SenatorsScraper.id_of_href href = Some i ->
     i <> [] /\ forallb (fun c => negb (N.eqb c 38)) i = true /\
     exists a b, href = a ++ lit "ParlamentarID=" ++ i ++ b /\
                 match b with [] => True | c :: _ => c = 38%N end).
Proof.
  assert (G : forall literal cls s g,
             re_search literal cls s = Some g ->
             exists a b, s = a ++ literal ++ g ++ b /\
                         match b with [] => True | c :: _ => cls c = false end).
  { intros literal cls s g. induction s as [|c s IH];
      rewrite re_search_unfold.
    - destruct (strip_prefix literal []) as [rest|] eqn:E; [|discriminate].
      apply strip_prefix_some in E.
      destruct (take_while cls rest) as [|x xs] eqn:T; [discriminate|].
      intros [= <-]. rewrite <- T. exists [], (drop_while cls rest). split.
      + rewrite <- take_drop_while. exact E.
      + destruct (drop_while cls rest) eqn:D; [exact I|].
        apply (drop_while_head cls rest D).
    - destruct (strip_prefix literal (c :: s)) as [rest|] eqn:E.
      + apply strip_prefix_some in E.
        destruct (take_while cls rest) as [|x xs] eqn:T.
        * intros H. destruct (IH H) as (a & b & -> & Hb).
          now exists (c :: a), b.
        * intros [= <-]. rewrite <- T. exists [], (drop_while cls rest).
          split.
          -- rewrite <- take_drop_while. exact E.
          -- destruct (drop_while cls rest) eqn:D; [exact I|].
             apply (drop_while_head cls rest D).
      + intros H. destruct (IH H) as (a & b & -> & Hb).
        now exists (c :: a), b. }
  intros is_decimal href i; split; intros H.
  - destruct (re_search_some _ _ _ H) as [Hne Hall].
    destruct (G _ _ _ _ H) as (a & b & E & Hb).
    split; [exact Hne|split; [exact Hall|]]. now exists a, b.
  - destruct (re_search_some _ _ _ H) as [Hne Hall].
    destruct (G _ _ _ _ H) as (a & b & E & Hb).
    split; [exact Hne|split; [exact Hall|]]. exists a, b. split; [exact E|].
    destruct b as [|c b]; [exact I|].
    apply negb_false_iff in Hb. now apply N.eqb_eq in Hb.
Qed.

Lemma id_stands_after_the_literal_witness :
  (exists a b,
      lit "structura2015.mp?idm=123&cam=2" = a ++ lit "idm=" ++ lit "123" ++ b)
  /\
  (exists a b,
      lit "FisaSenator.aspx?ParlamentarID=ab-12&x=1"
      = a ++ lit "ParlamentarID=" ++ lit "ab-12" ++ b).
Proof.
  split.
  - destruct (proj1 (id_stands_after_the_literal ascii_digit
                       (lit "structura2015.mp?idm=123&cam=2") (lit "123")))
      as (_ & _ & a & b & E & _); [vm_compute; reflexivity|].
    now exists a, b.
  - destruct (proj2 (id_stands_after_the_literal ascii_digit
                       (lit "FisaSenator.aspx?ParlamentarID=ab-12&x=1")
                       (lit "ab-12")))
      as (_ & _ & a & b & E & _); [vm_compute; reflexivity|].
    now exists a, b.
Defined.

(** ** The records of a listing *)

Lemma strip_idempotent (s : pystr) : strip (strip s) = strip s.
Proof. apply strip_by_idempotent. Qed.

Section LowerRecords.

Variable is_decimal : N -> bool.

Lemma found_fields (row : node) (d : ParliamentScraper.deputy) :
  ParliamentScraper.deputy_of_row is_decimal row = ParliamentScraper.Found d ->
  exists link c3 href,
    attr (lit "href") link = Some href /\
    ParliamentScraper.id_of_href is_decimal href
      = Some (ParliamentScraper.id d) /\
    ParliamentScraper.name d = strip (get_text link) /\
    ParliamentScraper.group d = strip (get_text c3) /\
    ParliamentScraper.url d
      = ParliamentScraper.profile_url (ParliamentScraper.id d) /\
    ParliamentScraper.local_file d = None.
Proof.
  unfold ParliamentScraper.deputy_of_row.
  destruct (4 <=? length (find_all (lit "td") row))%nat; [|discriminate].
  destruct (nth_error (find_all (lit "td") row) 1) as [c1|]; [|discriminate].
  destruct (nth_error (find_all (lit "td") row) 3) as [c3|]; [|discriminate].
  destruct (find (lit "a") c1) as [link|]; [|discriminate].
  destruct (attr (lit "href") link) as [href|] eqn:Eh; [|discriminate].
  destruct (ParliamentScraper.id_of_href is_decimal href) as [i|] eqn:Ei;
    [|discriminate].
  intros [= <-]. exists link, c3, href. cbn. repeat split; auto.
Qed.

Lemma deputies_of_rows_in (rows : list node) :
  forall ds d,
    ParliamentScraper.deputies_of_rows is_decimal rows = Some ds ->
    In d ds ->
    exists row, In row rows /\
                ParliamentScraper.deputy_of_row is_decimal row
                = ParliamentScraper.Found d.
Proof.
  induction rows as [|row rows IH]; intros ds d; simpl.
  - now intros [= <-].
  - destruct (ParliamentScraper.deputy_of_row is_decimal row) as [| |d0] eqn:E.
    + discriminate.
    + intros H Hd. destruct (IH _ _ H Hd) as (r & Hr & Er).
      exists r; auto.
    + destruct (ParliamentScraper.deputies_of_rows is_decimal rows) as [ds0|];
        [|discriminate].
      intros [= <-] [<-|Hd].
      * exists row; auto.
      * destruct (IH _ _ eq_refl Hd) as (r & Hr & Er). exists r; auto.
Qed.

Lemma extracted_deputy_row (doc : list node) (d : ParliamentScraper.deputy) :
  In d (ParliamentScraper.extract_deputies_from_file is_decimal doc) ->
  exists table row,
    In table (soup_find_all (lit "table") doc) /\
    In row (tl (find_all (lit "tr") table)) /\
    ParliamentScraper.deputy_of_row is_decimal row = ParliamentScraper.Found d.
Proof.
  unfold ParliamentScraper.extract_deputies_from_file.
  destruct (List.find ParliamentScraper.is_target
              (soup_find_all (lit "table") doc)) as [t|] eqn:Ft;
    [|contradiction].
  apply find_some in Ft as [Hin _].
  destruct (ParliamentScraper.deputies_of_rows is_decimal
              (tl (find_all (lit "tr") t))) as [ds|] eqn:E; [|contradiction].
  intros Hd. destruct (@deputies_of_rows_in _ _ _ E Hd) as (row & Hr & Er).
  now exists t, row.
Qed.

(** X4: every record of the lower-chamber listing has a non-empty id made
    of digits, the profile URL built from that id, in which the id pattern
    finds the id again, a name and a group without surrounding white
    space, and no detail file yet. *)
Theorem deputy_record_wellformed :
  forall (doc : list node) (d : ParliamentScraper.deputy),
    In d (ParliamentScraper.extract_deputies_from_file is_decimal doc) ->
    ParliamentScraper.id d <> [] /\
    forallb is_decimal (ParliamentScraper.id d) = true /\
    ParliamentScraper.url d
      = ParliamentScraper.url_template ++ ParliamentScraper.id d /\
    ParliamentScraper.id_of_href is_decimal (ParliamentScraper.url d)
      = Some (ParliamentScraper.id d) /\
    strip (ParliamentScraper.name d) = ParliamentScraper.name d /\
    strip (ParliamentScraper.group d) = ParliamentScraper.group d /\
    ParliamentScraper.local_file d = None.
Proof.
  intros doc d Hd.
  destruct (extracted_deputy_row doc d Hd) as (t & row & _ & _ & E).
  destruct (found_fields row E) as (link & c3 & href & _ & Ei & En & Eg & Eu & El).
  destruct (re_search_some _ _ _ Ei) as [Hne Hall].
  repeat split; auto.
  - rewrite Eu. now apply deputy_roundtrip.
  - rewrite En. apply strip_idempotent.
  - rewrite Eg. apply strip_idempotent.
Qed.

End LowerRecords.

Lemma deputy_record_wellformed_witness :
  ParliamentScraper.id_of_href ascii_digit
    (lit "https://cdep.ro/pls/parlam/structura2015.mp?idm=123")
  = Some (lit "123").
Proof.
  assert (H : In (ParliamentScraper.mk_deputy (lit "Ion Pop")
                    (lit "https://cdep.ro/pls/parlam/structura2015.mp?idm=123")
                    (lit "123") (lit "PSD") None)
                 (ParliamentScraper.extract_deputies_from_file ascii_digit
                    (Examples.listing [Examples.row_ion_pop;
                                       Examples.row_ana_dinu])))
    by (vm_compute; left; reflexivity).
  exact (proj1 (proj2 (proj2 (proj2
           (deputy_record_wellformed ascii_digit _ _ H))))).
Defined.

Section UpperRecords.

Variable base_url : pystr.

Lemma senators_of_cards_in (cards : list node) (s : SenatorsScraper.senator) :
  In s (SenatorsScraper.senators_of_cards base_url cards) ->
  exists card, In card cards /\
               SenatorsScraper.senator_of_card base_url card = Some s.
Proof.
  induction cards as [|card cards IH]; simpl; [contradiction|].
  destruct (SenatorsScraper.senator_of_card base_url card) as [s0|] eqn:E.
  - intros [<-|H]; [exists card; auto|].
    destruct (IH H) as (c & Hc & Ec). exists c; auto.
  - intros H. destruct (IH H) as (c & Hc & Ec). exists c; auto.
Qed.

(** X5: every record of the upper-chamber listing has a non-empty id
    without ampersand and the profile URL built from it; its name,
    constituency and group hold none of the four mis-decoded characters;
    it has no detail file yet.  With the default base URL the id pattern
    finds the id again in the profile URL. *)
Theorem senator_record_wellformed :
  forall (doc : list node) (s : SenatorsScraper.senator),
    In s (SenatorsScraper.extract_senators_from_file base_url doc) ->
    SenatorsScraper.id s <> [] /\
    forallb (fun c => negb (N.eqb c 38)) (SenatorsScraper.id s) = true /\
    SenatorsScraper.url s
      = base_url ++ SenatorsScraper.url_path ++ SenatorsScraper.id s /\
    existsb mis_decoded (SenatorsScraper.name s) = false /\
    existsb mis_decoded (SenatorsScraper.constituency s) = false /\
    existsb mis_decoded (SenatorsScraper.group s) = false /\
    SenatorsScraper.local_file s = None /\
    (base_url = SenatorsScraper.default_base_url ->
     SenatorsScraper.id_of_href (SenatorsScraper.url s)
     = Some (SenatorsScraper.id s)).
Proof.
  intros doc s Hs.
  destruct (senators_of_cards_in _ _ Hs) as (card & _ & E).
  unfold SenatorsScraper.senator_of_card in E.
  destruct (find (lit "a") card) as [link|]; [|discriminate].
  destruct (SenatorsScraper.id_of_href _) as [i|] eqn:Ei; [|discriminate].
  injection E as <-.
  cbn [SenatorsScraper.id SenatorsScraper.name SenatorsScraper.url
       SenatorsScraper.constituency SenatorsScraper.group
       SenatorsScraper.local_file].
  destruct (re_search_some _ _ _ Ei) as [Hne Hall].
  split; [exact Hne|]. split; [exact Hall|]. split; [reflexivity|].
  split; [apply fix_romanian_str_no_mis_decoded|].
  split; [apply fix_romanian_str_no_mis_decoded|].
  split; [apply fix_romanian_str_no_mis_decoded|].
  split; [reflexivity|].
  intros E0. rewrite E0. now apply senator_roundtrip.
Qed.

End UpperRecords.

Lemma senator_record_wellformed_witness :
  existsb mis_decoded (SenatorsScraper.name Examples.maria) = false /\
  SenatorsScraper.id_of_href (SenatorsScraper.url Examples.maria)
  = Some (lit "ab-12").
Proof.
  assert (H : In Examples.maria
                 (SenatorsScraper.extract_senators_from_file
                    SenatorsScraper.default_base_url
                    [Examples.card_maria; Examples.card_without_id]))
    by (vm_compute; left; reflexivity).
  destruct (senator_record_wellformed _ _ _ H)
    as (_ & _ & _ & Hn & _ & _ & _ & Hr).
  split; [exact Hn|exact (Hr eq_refl)].
Defined.

(** ** Which rows and cards give the records *)

Section ListingShape.

Variable is_decimal : N -> bool.
Variable base_url : pystr.









End ListingShape.


(** ** The download stage *)

Section Download.

Variable use_cache : bool.
Variable path_exists : nat -> pystr -> bool.
Variable fetch_ok : nat -> pystr -> bool.

Lemma deputy_download_shape (ds : list ParliamentScraper.deputy) :
  forall i,
    Forall2 deputy_enriched ds
      (fst (ParliamentScraper.download_from use_cache path_exists fetch_ok i ds))
    /\
    snd (ParliamentScraper.download_from use_cache path_exists fetch_ok i ds) =
      (if use_cache
       then map (fun d => Probe (ParliamentScraper.filepath_of d)) ds
       else map (fun d => Fetch (ParliamentScraper.url d)) ds).
Proof.
  induction ds as [|d ds IH]; intros i.
  - split; [constructor|now destruct use_cache].
  - cbn [ParliamentScraper.download_from]. specialize (IH (S i)).
    destruct (ParliamentScraper.download_from use_cache path_exists fetch_ok
                (S i) ds) as [rest evs]. cbn [fst snd] in IH.
    destruct IH as [IH1 IH2].
    destruct use_cache.
    + destruct (path_exists i (ParliamentScraper.filepath_of d));
        cbn [fst snd map]; (split; [constructor; [|exact IH1]|now f_equal]);
        [now right|now left].
    + destruct (fetch_ok i (ParliamentScraper.url d));
        cbn [fst snd map]; (split; [constructor; [|exact IH1]|now f_equal]);
        [now right|now left].
Qed.

Lemma senator_download_shape (ss : list SenatorsScraper.senator) :
  forall i,
    Forall2 senator_enriched ss
      (fst (SenatorsScraper.download_from use_cache path_exists fetch_ok i ss))
    /\
    (use_cache = false ->
     snd (SenatorsScraper.download_from use_cache path_exists fetch_ok i ss) =
       map (fun s => Fetch (SenatorsScraper.url s)) ss) /\
    (use_cache = true ->
     (forall k p, path_exists k p = true) ->
     snd (SenatorsScraper.download_from use_cache path_exists fetch_ok i ss) =
       map (fun s => Probe (SenatorsScraper.filepath_of s)) ss /\
     fst (SenatorsScraper.download_from use_cache path_exists fetch_ok i ss) =
       map (fun s => SenatorsScraper.with_local_file s
                       (SenatorsScraper.filepath_of s)) ss) /\
    (use_cache = true ->
     (forall k p, path_exists k p = false) ->
     snd (SenatorsScraper.download_from use_cache path_exists fetch_ok i ss) =
       flat_map (fun s => [Probe (SenatorsScraper.filepath_of s);
                           Fetch (SenatorsScraper.url s)]) ss).
Proof.
  induction ss as [|s ss IH]; intros i.
  - repeat split; constructor.
  - cbn [SenatorsScraper.download_from]. specialize (IH (S i)).
    destruct (SenatorsScraper.download_from use_cache path_exists fetch_ok
                (S i) ss) as [rest evs]. cbn [fst snd] in IH.
    destruct IH as (IH1 & IH2 & IH3 & IH4).
    destruct use_cache.
    + destruct (path_exists i (SenatorsScraper.filepath_of s)) eqn:Ex.
      * cbn [fst snd map flat_map app]. split; [|split; [|split]].
        -- constructor; [now right|exact IH1].
        -- discriminate.
        -- intros _ Hall. destruct (IH3 eq_refl Hall) as [-> ->]. now split.
        -- intros _ Hnone. rewrite Hnone in Ex. discriminate.
      * destruct (fetch_ok i (SenatorsScraper.url s));
          cbn [fst snd map flat_map app]; (split; [|split; [|split]]);
          try (constructor; [|exact IH1]); try (now right); try (now left);
          try discriminate;
          try (intros _ Hall; rewrite Hall in Ex; discriminate);
          try (intros _ Hnone; now rewrite (IH4 eq_refl Hnone)).
    + destruct (fetch_ok i (SenatorsScraper.url s));
        cbn [fst snd map flat_map app]; (split; [|split; [|split]]);
        try (constructor; [|exact IH1]); try (now right); try (now left);
        try discriminate; try (intros _; now rewrite (IH2 eq_refl)).
Qed.

End Download.

(** X9: the download stage of the lower chamber keeps the records and
    their order, and changes a record at most by adding the detail file,
    under the path made from its id and its name.  In cache mode it makes
    one probe per record, in listing order, and no request; otherwise one
    request per record and no probe. *)
Theorem deputy_download_enriches :
  forall (use_cache : bool) (path_exists fetch_ok : nat -> pystr -> bool)
         (ds : list ParliamentScraper.deputy),
    Forall2 deputy_enriched ds
      (fst (ParliamentScraper.download_deputy_pages use_cache path_exists
              fetch_ok ds)) /\
    snd (ParliamentScraper.download_deputy_pages true path_exists fetch_ok ds)
    = map (fun d => Probe (ParliamentScraper.filepath_of d)) ds /\
    snd (ParliamentScraper.download_deputy_pages false path_exists fetch_ok ds)
    = map (fun d => Fetch (ParliamentScraper.url d)) ds.
Proof.
  intros use_cache path_exists fetch_ok ds. split; [|split].
  - apply deputy_download_shape.
  - apply (deputy_download_shape true path_exists fetch_ok ds 0).
  - apply (deputy_download_shape false path_exists fetch_ok ds 0).
Qed.

(** X10: the download stage of the upper chamber keeps the records and
    their order, and changes a record at most by adding the detail file,
    under the path made from its id.  Without cache it makes one request
    per record and no probe.  In cache mode, when every file is there, it
    makes one probe per record, no request, and every record gets its
    file; when no file is there, each probe is followed by a request for
    the same record: a missing file is downloaded. *)
Theorem senator_download_enriches :
  forall (use_cache : bool) (path_exists fetch_ok : nat -> pystr -> bool)
         (ss : list SenatorsScraper.senator),
    Forall2 senator_enriched ss
      (fst (SenatorsScraper.download_senator_pages use_cache path_exists
              fetch_ok ss)) /\
    snd (SenatorsScraper.download_senator_pages false path_exists fetch_ok ss)
    = map (fun s => Fetch (SenatorsScraper.url s)) ss /\
    ((forall k p, path_exists k p = true) ->
     snd (SenatorsScraper.download_senator_pages true path_exists fetch_ok ss)
     = map (fun s => Probe (SenatorsScraper.filepath_of s)) ss /\
     fst (SenatorsScraper.download_senator_pages true path_exists fetch_ok ss)
     = map (fun s => SenatorsScraper.with_local_file s
                       (SenatorsScraper.filepath_of s)) ss) /\
    ((forall k p, path_exists k p = false) ->
     snd (SenatorsScraper.download_senator_pages true path_exists fetch_ok ss)
     = flat_map (fun s => [Probe (SenatorsScraper.filepath_of s);
                           Fetch (SenatorsScraper.url s)]) ss).
Proof.
  intros use_cache path_exists fetch_ok ss. split; [|split; [|split]].
  - apply senator_download_shape.
  - now apply (senator_download_shape false path_exists fetch_ok ss 0).
  - now apply (senator_download_shape true path_exists fetch_ok ss 0).
  - now apply (senator_download_shape true path_exists fetch_ok ss 0).
Qed.

Lemma senator_download_enriches_witness :
  snd (SenatorsScraper.download_senator_pages true Examples.all_exist
         Examples.nothing_loads [Examples.maria])
  = [Probe (lit "senate_data/senators/senator_ab-12.html")] /\
  snd (SenatorsScraper.download_senator_pages true Examples.nothing_exists
         Examples.nothing_loads [Examples.maria])
  = [Probe (lit "senate_data/senators/senator_ab-12.html");
     Fetch (lit "https://www.senat.ro/FisaSenator.aspx?ParlamentarID=ab-12")].
Proof.
  destruct (senator_download_enriches false Examples.all_exist
              Examples.nothing_loads [Examples.maria]) as (_ & _ & H & _).
  destruct (senator_download_enriches false Examples.nothing_exists
              Examples.nothing_loads [Examples.maria]) as (_ & _ & _ & K).
  split.
  - rewrite (proj1 (H (fun _ _ => eq_refl))). reflexivity.
  - rewrite (K (fun _ _ => eq_refl)). reflexivity.
Defined.

(** ** The whole run *)

Section WholeRun.

Variable is_decimal : N -> bool.
Variable urljoin : pystr -> pystr -> option pystr.
Variable base_url : pystr.
Variable use_cache : bool.
Variable path_exists : nat -> pystr -> bool.
Variable fetch_ok : nat -> pystr -> bool.
Variable read_page : pystr -> option (list node).

Lemma deputy_download_events (ds : list ParliamentScraper.deputy) (i : nat) :
  forallb is_download
    (snd (ParliamentScraper.download_from use_cache path_exists fetch_ok i ds))
  = true.
Proof.
  revert i; induction ds as [|d ds IH]; intros i; [reflexivity|].
  cbn [ParliamentScraper.download_from]. specialize (IH (S i)).
  destruct (ParliamentScraper.download_from use_cache path_exists fetch_ok
              (S i) ds) as [rest evs].
  destruct use_cache; exact IH.
Qed.

Lemma senator_download_events (ss : list SenatorsScraper.senator) (i : nat) :
  forallb is_download
    (snd (SenatorsScraper.download_from use_cache path_exists fetch_ok i ss))
  = true.
Proof.
  revert i; induction ss as [|s ss IH]; intros i; [reflexivity|].
  cbn [SenatorsScraper.download_from]. specialize (IH (S i)).
  destruct (SenatorsScraper.download_from use_cache path_exists fetch_ok
              (S i) ss) as [rest evs].
  destruct use_cache; [destruct (path_exists i _)|]; exact IH.
Qed.

Lemma forallb_flat_map (A B : Type) (p : B -> bool) (f : A -> list B)
      (l : list A) :
  (forall x, forallb p (f x) = true) -> forallb p (flat_map f l) = true.
Proof.
  intros H. induction l as [|x l IH]; simpl; [reflexivity|].
  now rewrite forallb_app, H, IH.
Qed.

Lemma forallb_map_write (rows : list (list pystr)) :
  forallb is_emit (map WriteRow rows) = true.
Proof. induction rows; simpl; auto. Qed.

Lemma deputy_emit_events (d : ParliamentScraper.deputy) :
  forallb is_emit
    (ParliamentScraper.process_deputy urljoin base_url read_page d) = true.
Proof.
  unfold ParliamentScraper.process_deputy.
  destruct (ParliamentScraper.local_file d); [|reflexivity].
  apply forallb_map_write.
Qed.

Lemma senator_emit_events (s : SenatorsScraper.senator) :
  forallb is_emit
    (SenatorsScraper.process_senator urljoin base_url read_page s) = true.
Proof.
  unfold SenatorsScraper.process_senator.
  destruct (SenatorsScraper.local_file s); [|reflexivity].
  apply forallb_map_write.
Qed.

(** X11: a run does nothing at all, or it goes through its stages one
    after the other: first the probes and requests of the download stage
    and nothing else, then the output file is opened, once, and the
    header is written, and from then on only detail files are parsed and
    rows written.  No page is probed or requested once the output file is
    open. *)
Theorem run_in_stages :
  forall doc : list node,
    (ParliamentScraper.process_all is_decimal urljoin base_url use_cache
       path_exists fetch_ok read_page doc = [] \/
     exists downloads emits,
       ParliamentScraper.process_all is_decimal urljoin base_url use_cache
         path_exists fetch_ok read_page doc =
       downloads ++ OpenCsv :: WriteRow ParliamentScraper.header :: emits /\
       forallb is_download downloads = true /\
       forallb is_emit emits = true) /\
    (SenatorsScraper.process_all urljoin base_url use_cache path_exists
       fetch_ok read_page doc = [] \/
     exists downloads emits,
       SenatorsScraper.process_all urljoin base_url use_cache path_exists
         fetch_ok read_page doc =
       downloads ++ OpenCsv :: WriteRow SenatorsScraper.header :: emits /\
       forallb is_download downloads = true /\
       forallb is_emit emits = true).
Proof.
  intros doc; split.
  - unfold ParliamentScraper.process_all,
      ParliamentScraper.download_deputy_pages.
    destruct (ParliamentScraper.extract_deputies_from_file is_decimal doc)
      as [|d ds]; [now left|right].
    pose proof (deputy_download_events (d :: ds) 0) as E.
    destruct (ParliamentScraper.download_from use_cache path_exists fetch_ok
                0 (d :: ds)) as [rest evs].
    exists evs, (flat_map (ParliamentScraper.process_deputy urljoin base_url
                             read_page) rest).
    split; [reflexivity|split; [exact E|]].
    apply forallb_flat_map, deputy_emit_events.
  - unfold SenatorsScraper.process_all,
      SenatorsScraper.download_senator_pages.
    destruct (SenatorsScraper.extract_senators_from_file base_url doc)
      as [|s ss]; [now left|right].
    pose proof (senator_download_events (s :: ss) 0) as E.
    destruct (SenatorsScraper.download_from use_cache path_exists fetch_ok
                0 (s :: ss)) as [rest evs].
    exists evs, (flat_map (SenatorsScraper.process_senator urljoin base_url
                             read_page) rest).
    split; [reflexivity|split; [exact E|]].
    apply forallb_flat_map, senator_emit_events.
Qed.

Lemma rows_of_downloads (evs : list event) :
  forallb is_download evs = true -> rows_of evs = [].
Proof.
  induction evs as [|e evs IH]; [reflexivity|].
  simpl. intros H. apply andb_true_iff in H as [He H].
  destruct e; try discriminate; now apply IH.
Qed.

Lemma deputy_run_rows (doc : list node) :
  rows_of (ParliamentScraper.process_all is_decimal urljoin base_url use_cache
             path_exists fetch_ok read_page doc) =
  match ParliamentScraper.extract_deputies_from_file is_decimal doc with
  | [] => []
  | deputies =>
      ParliamentScraper.header ::
      flat_map (fun d => rows_of (ParliamentScraper.process_deputy urljoin
                                    base_url read_page d))
        (fst (ParliamentScraper.download_deputy_pages use_cache path_exists
                fetch_ok deputies))
  end.
Proof.
  unfold ParliamentScraper.process_all,
    ParliamentScraper.download_deputy_pages.
  destruct (ParliamentScraper.extract_deputies_from_file is_decimal doc)
    as [|d ds]; [reflexivity|].
  pose proof (deputy_download_events (d :: ds) 0) as E.
  destruct (ParliamentScraper.download_from use_cache path_exists fetch_ok
              0 (d :: ds)) as [rest evs].
  cbn [fst snd] in *. rewrite rows_of_app, (rows_of_downloads _ E).
  change (rows_of (OpenCsv :: WriteRow ?h :: ?l)) with (h :: rows_of l).
  cbn [app]. now rewrite rows_of_flat_map.
Qed.

Lemma senator_run_rows (doc : list node) :
  rows_of (SenatorsScraper.process_all urljoin base_url use_cache path_exists
             fetch_ok read_page doc) =
  match SenatorsScraper.extract_senators_from_file base_url doc with
  | [] => []
  | senators =>
      SenatorsScraper.header ::
      flat_map (fun s => rows_of (SenatorsScraper.process_senator urljoin
                                    base_url read_page s))
        (fst (SenatorsScraper.download_senator_pages use_cache path_exists
                fetch_ok senators))
  end.
Proof.
  unfold SenatorsScraper.process_all,
    SenatorsScraper.download_senator_pages.
  destruct (SenatorsScraper.extract_senators_from_file base_url doc)
    as [|s ss]; [reflexivity|].
  pose proof (senator_download_events (s :: ss) 0) as E.
  destruct (SenatorsScraper.download_from use_cache path_exists fetch_ok
              0 (s :: ss)) as [rest evs].
  cbn [fst snd] in *. rewrite rows_of_app, (rows_of_downloads _ E).
  change (rows_of (OpenCsv :: WriteRow ?h :: ?l)) with (h :: rows_of l).
  cbn [app]. now rewrite rows_of_flat_map.
Qed.

End WholeRun.

(** ** The rows of a run *)

Section RunRows.

Variable is_decimal : N -> bool.
Variable urljoin : pystr -> pystr -> option pystr.
Variable base_url : pystr.
Variable use_cache : bool.
Variable path_exists : nat -> pystr -> bool.
Variable fetch_ok : nat -> pystr -> bool.
Variable read_page : pystr -> option (list node).

Lemma deputy_rows_cases (d : ParliamentScraper.deputy) :
  rows_of (ParliamentScraper.process_deputy urljoin base_url read_page d) =
  match ParliamentScraper.local_file d with
  | None => []
  | Some f =>
      ParliamentScraper.emit d
        (ParliamentScraper.parse_deputy_committees urljoin base_url
           read_page f)
  end.
Proof.
  destruct (ParliamentScraper.local_file d) as [f|] eqn:E.
  - apply (deputy_rows urljoin base_url read_page d E).
  - unfold ParliamentScraper.process_deputy. now rewrite E.
Qed.

Lemma senator_rows_cases (s : SenatorsScraper.senator) :
  rows_of (SenatorsScraper.process_senator urljoin base_url read_page s) =
  match SenatorsScraper.local_file s with
  | None => []
  | Some f =>
      SenatorsScraper.emit s
        (SenatorsScraper.parse_senator_committees urljoin base_url
           read_page f)
  end.
Proof.
  destruct (SenatorsScraper.local_file s) as [f|] eqn:E.
  - apply (senator_rows urljoin base_url read_page s E).
  - unfold SenatorsScraper.process_senator. now rewrite E.
Qed.

(** X12: every row of the upper-chamber output, the header included, has
    eight cells; every row of the lower-chamber output has seven cells,
    as its header, or six. *)
Theorem rows_width :
  forall doc : list node,
    forallb (fun row => length row =? 8)
      (rows_of (SenatorsScraper.process_all urljoin base_url use_cache
                  path_exists fetch_ok read_page doc)) = true /\
    forallb (fun row => (length row =? 7) || (length row =? 6))
      (rows_of (ParliamentScraper.process_all is_decimal urljoin base_url
                  use_cache path_exists fetch_ok read_page doc)) = true.
Proof.
  intros doc; split.
  - rewrite senator_run_rows.
    destruct (SenatorsScraper.extract_senators_from_file base_url doc)
      as [|s ss]; [reflexivity|].
    cbn [forallb]. apply forallb_flat_map. intros x.
    rewrite senator_rows_cases.
    destruct (SenatorsScraper.local_file x) as [f|]; [|reflexivity].
    destruct (SenatorsScraper.parse_senator_committees urljoin base_url
                read_page f) as [|c cs]; [reflexivity|].
    unfold SenatorsScraper.emit. apply forallb_forall.
    intros row Hrow. apply in_map_iff in Hrow as (c' & <- & _). reflexivity.
  - rewrite deputy_run_rows.
    destruct (ParliamentScraper.extract_deputies_from_file is_decimal doc)
      as [|d ds]; [reflexivity|].
    cbn [forallb]. apply forallb_flat_map. intros x.
    rewrite deputy_rows_cases.
    destruct (ParliamentScraper.local_file x) as [f|]; [|reflexivity].
    destruct (ParliamentScraper.parse_deputy_committees urljoin base_url
                read_page f) as [|c cs]; [reflexivity|].
    unfold ParliamentScraper.emit. apply forallb_forall.
    intros row Hrow. apply in_map_iff in Hrow as (c' & <- & _). reflexivity.
Qed.

Lemma length_flat_map (A B : Type) (f : A -> list B) (l : list A) :
  length (flat_map f l) = list_sum (map (fun x => length (f x)) l).
Proof.
  induction l as [|x l IH]; simpl; [reflexivity|].
  now rewrite length_app, IH.
Qed.

(** X13: the number of rows of a run that found records is one, for the
    header, plus, for each record that has a detail file after the
    download stage, the number of its associations, or one when it has
    none; a record without detail file counts for nothing. *)
Theorem rows_count :
  forall doc : list node,
    length (rows_of (ParliamentScraper.process_all is_decimal urljoin base_url
                       use_cache path_exists fetch_ok read_page doc)) =
    match ParliamentScraper.extract_deputies_from_file is_decimal doc with
    | [] => 0
    | deputies =>
        1 + list_sum
              (map (fun d =>
                      match ParliamentScraper.local_file d with
                      | Some f =>
                          Nat.max 1
                            (length (ParliamentScraper.parse_deputy_committees
                                       urljoin base_url read_page f))
                      | None => 0
                      end)
                   (fst (ParliamentScraper.download_deputy_pages use_cache
                           path_exists fetch_ok deputies)))
    end /\
    length (rows_of (SenatorsScraper.process_all urljoin base_url use_cache
                       path_exists fetch_ok read_page doc)) =
    match SenatorsScraper.extract_senators_from_file base_url doc with
    | [] => 0
    | senators =>
        1 + list_sum
              (map (fun s =>
                      match SenatorsScraper.local_file s with
                      | Some f =>
                          Nat.max 1
                            (length (SenatorsScraper.parse_senator_committees
                                       urljoin base_url read_page f))
                      | None => 0
                      end)
                   (fst (SenatorsScraper.download_senator_pages use_cache
                           path_exists fetch_ok senators)))
    end.
Proof.
  intros doc; split.
  - rewrite deputy_run_rows.
    destruct (ParliamentScraper.extract_deputies_from_file is_decimal doc)
      as [|d ds]; [reflexivity|].
    cbn [length]. rewrite length_flat_map. cbn [plus]. do 2 f_equal.
    apply map_ext. intros x. rewrite deputy_rows_cases.
    destruct (ParliamentScraper.local_file x) as [f|]; [|reflexivity].
    destruct (ParliamentScraper.parse_deputy_committees urljoin base_url
                read_page f) as [|c cs]; [reflexivity|].
    unfold ParliamentScraper.emit. rewrite length_map. reflexivity.
  - rewrite senator_run_rows.
    destruct (SenatorsScraper.extract_senators_from_file base_url doc)
      as [|s ss]; [reflexivity|].
    cbn [length]. rewrite length_flat_map. cbn [plus]. do 2 f_equal.
    apply map_ext. intros x. rewrite senator_rows_cases.
    destruct (SenatorsScraper.local_file x) as [f|]; [|reflexivity].
    destruct (SenatorsScraper.parse_senator_committees urljoin base_url
                read_page f) as [|c cs]; [reflexivity|].
    unfold SenatorsScraper.emit. rewrite length_map. reflexivity.
Qed.

Lemma enriched_deputy_in (ds ds' : list ParliamentScraper.deputy)
      (d' : ParliamentScraper.deputy) :
  Forall2 deputy_enriched ds ds' -> In d' ds' ->
  exists d, In d ds /\ deputy_enriched d d'.
Proof.
  induction 1 as [|d x ds ds' Hd _ IH]; [contradiction|].
  intros [<-|H].
  - exists d; split; [now left|exact Hd].
  - destruct (IH H) as (d0 & Hin & He). exists d0; split; [now right|exact He].
Qed.

Lemma enriched_senator_in (ss ss' : list SenatorsScraper.senator)
      (s' : SenatorsScraper.senator) :
  Forall2 senator_enriched ss ss' -> In s' ss' ->
  exists s, In s ss /\ senator_enriched s s'.
Proof.
  induction 1 as [|s x ss ss' Hs _ IH]; [contradiction|].
  intros [<-|H].
  - exists s; split; [now left|exact Hs].
  - destruct (IH H) as (s0 & Hin & He). exists s0; split; [now right|exact He].
Qed.

(** X14: every row of the output after the header belongs to a record of
    the listing: in the upper chamber its first six cells are the fields
    of such a record, unchanged; in the lower chamber its first three
    cells are the name, the URL and the id of such a record. *)
Theorem rows_belong_to_records :
  forall (doc : list node) (row : list pystr),
    (In row (tl (rows_of (SenatorsScraper.process_all urljoin base_url
                            use_cache path_exists fetch_ok read_page doc))) ->
     exists s,
       In s (SenatorsScraper.extract_senators_from_file base_url doc) /\
       firstn 6 row = Spec.senator_fields s) /\
    (In row (tl (rows_of (ParliamentScraper.process_all is_decimal urljoin
                            base_url use_cache path_exists fetch_ok read_page
                            doc))) ->
     exists d,
       In d (ParliamentScraper.extract_deputies_from_file is_decimal doc) /\
       firstn 3 row = [ParliamentScraper.name d; ParliamentScraper.url d;
                       ParliamentScraper.id d]).
Proof.
  intros doc row; split.
  - rewrite senator_run_rows.
    destruct (SenatorsScraper.extract_senators_from_file base_url doc)
      as [|s0 ss] eqn:E; [contradiction|].
    cbn [tl]. intros H. apply in_flat_map in H as (s' & Hs' & Hrow).
    unfold SenatorsScraper.download_senator_pages in Hs'.
    destruct (@enriched_senator_in _ _ _
                (proj1 (senator_download_shape use_cache path_exists fetch_ok
                          (s0 :: ss) 0)) Hs') as (s & Hs & He).
    exists s. split; [exact Hs|].
    rewrite senator_rows_cases in Hrow.
    destruct (SenatorsScraper.local_file s') as [f|]; [|contradiction].
    assert (F : Spec.senator_fields s' = Spec.senator_fields s)
      by (destruct He as [->| ->]; reflexivity).
    rewrite <- F.
    destruct (SenatorsScraper.parse_senator_committees urljoin base_url
                read_page f) as [|c cs].
    + destruct Hrow as [<-|[]]. reflexivity.
    + unfold SenatorsScraper.emit in Hrow.
      apply in_map_iff in Hrow as (c' & <- & _). reflexivity.
  - rewrite deputy_run_rows.
    destruct (ParliamentScraper.extract_deputies_from_file is_decimal doc)
      as [|d0 ds] eqn:E; [contradiction|].
    cbn [tl]. intros H. apply in_flat_map in H as (d' & Hd' & Hrow).
    unfold ParliamentScraper.download_deputy_pages in Hd'.
    destruct (@enriched_deputy_in _ _ _
                (proj1 (deputy_download_shape use_cache path_exists fetch_ok
                          (d0 :: ds) 0)) Hd') as (d & Hd & He).
    exists d. split; [exact Hd|].
    rewrite deputy_rows_cases in Hrow.
    destruct (ParliamentScraper.local_file d') as [f|]; [|contradiction].
    assert (F : [ParliamentScraper.name d'; ParliamentScraper.url d';
                 ParliamentScraper.id d'] =
                [ParliamentScraper.name d; ParliamentScraper.url d;
                 ParliamentScraper.id d])
      by (destruct He as [->| ->]; reflexivity).
    rewrite <- F.
    destruct (ParliamentScraper.parse_deputy_committees urljoin base_url
                read_page f) as [|c cs].
    + destruct Hrow as [<-|[]]. reflexivity.
    + unfold ParliamentScraper.emit in Hrow.
      apply in_map_iff in Hrow as (c' & <- & _). reflexivity.
Qed.

End RunRows.

(** ** The detail pages *)

Section DetailPages.

Variable urljoin : pystr -> pystr -> option pystr.
Variable base_url : pystr.

Lemma scan_links_stops (between after : list node)
      (attrs : list (pystr * pystr)) (cs : list node) :
  SenatorsScraper.scan_links urljoin base_url
    (between ++ Tag (lit "h5") attrs cs :: after) =
  SenatorsScraper.scan_links urljoin base_url between.
Proof.
  induction between as [|e between IH]; [reflexivity|].
  destruct e as [nm a c|s|s]; cbn [app SenatorsScraper.scan_links];
    try exact IH.
  destruct (PyStr.eqb nm (lit "h5")); [reflexivity|].
  destruct (PyStr.eqb nm (lit "a")); [|exact IH].
  destruct (get_attr (lit "href") a) as [href|]; [|reflexivity].
  destruct (urljoin base_url href) as [u|]; [|reflexivity].
  now rewrite IH.
Qed.

(** X15: on an upper-chamber detail page where another [h5] follows the
    committees heading, the associations are those of the anchors that
    stand between the two headings, in document order (none when one of
    these anchors has no [href] that [urljoin] accepts); nothing that
    comes after the second heading has any influence. *)
Theorem scan_stops_at_the_next_heading :
  forall (doc between after : list node) (attrs : list (pystr * pystr))
         (cs : list node),
    after_first SenatorsScraper.is_heading (elements doc) =
      Some (between ++ Tag (lit "h5") attrs cs :: after) ->
    (forall n, In n between -> is_tag (lit "h5") n = false) ->
    SenatorsScraper.committees_of_page urljoin base_url doc =
      match all_or_nothing
              (map (link_of urljoin base_url)
                   (filter (is_tag (lit "a")) between)) with
      | Some committees => committees
      | None => []
      end.
Proof.
  intros doc between after attrs cs Hh Hno.
  unfold SenatorsScraper.committees_of_page. rewrite Hh.
  rewrite scan_links_stops.
  now rewrite (scan_links_to_the_end urljoin base_url between Hno).
Qed.

Lemma set_last_role_wellformed (text : pystr)
      (cs : list ParliamentScraper.committee) :
  text <> [] -> trim_role text = text ->
  Forall (committee_wellformed urljoin base_url) cs ->
  Forall (committee_wellformed urljoin base_url)
    (ParliamentScraper.set_last_role text cs).
Proof.
  intros Hne Ht. induction 1 as [|c cs Hc Hcs IH]; [constructor|].
  destruct cs as [|c' cs'].
  - constructor; [|constructor].
    destruct Hc as (Hn & Hu & _). repeat split; assumption.
  - change (ParliamentScraper.set_last_role text (c :: c' :: cs'))
      with (c :: ParliamentScraper.set_last_role text (c' :: cs')).
    constructor; assumption.
Qed.

Lemma nonempty_neq (A : Type) (l : list A) : nonempty l = true -> l <> [].
Proof. destruct l; [discriminate|intros _ E; discriminate E]. Qed.

Lemma trim_role_idempotent (s : pystr) : trim_role (trim_role s) = trim_role s.
Proof. apply strip_by_idempotent. Qed.

Lemma walk_contents_wellformed (els : list node) :
  forall committees cs : list ParliamentScraper.committee,
    Forall (committee_wellformed urljoin base_url) committees ->
    ParliamentScraper.walk_contents urljoin base_url els committees = Some cs ->
    Forall (committee_wellformed urljoin base_url) cs.
Proof.
  assert (T : forall (s : pystr) (rest : list node),
             (forall committees cs,
                 Forall (committee_wellformed urljoin base_url) committees ->
                 ParliamentScraper.walk_contents urljoin base_url rest
                   committees = Some cs ->
                 Forall (committee_wellformed urljoin base_url) cs) ->
             forall committees cs,
               Forall (committee_wellformed urljoin base_url) committees ->
               (if nonempty (trim_role s) && nonempty committees
                then ParliamentScraper.walk_contents urljoin base_url rest
                       (ParliamentScraper.set_last_role (trim_role s)
                          committees)
                else ParliamentScraper.walk_contents urljoin base_url rest
                       committees) = Some cs ->
               Forall (committee_wellformed urljoin base_url) cs).
  { intros s rest IH committees cs Hc.
    destruct (nonempty (trim_role s)) eqn:En; cbn [andb];
      [|now apply IH].
    destruct (nonempty committees); [|now apply IH].
    apply IH. apply set_last_role_wellformed;
      [now apply nonempty_neq|apply trim_role_idempotent|exact Hc]. }
  induction els as [|e rest IH]; intros committees cs Hc.
  - cbn. now intros [= <-].
  - destruct e as [nm attrs c|s|s];
      cbn [ParliamentScraper.walk_contents];
      [|exact (T s rest IH committees cs Hc)
       |exact (T s rest IH committees cs Hc)].
    destruct (PyStr.eqb nm (lit "a")); [|now apply IH].
    destruct (get_attr (lit "href") attrs) as [href|]; [|discriminate].
    destruct (urljoin base_url href) as [u|] eqn:Eu; [|discriminate].
    apply IH. apply Forall_app. split; [exact Hc|].
    constructor; [|constructor]. repeat split.
    + apply strip_idempotent.
    + now exists href.
Qed.

(** X16: every association read off a lower-chamber detail file has a
    trimmed name and a URL that [urljoin] made from the base URL; its
    role, when it has one, is never empty and carries none of the role
    characters (space, hyphen, newline, carriage return, tab) at either
    end. *)
Theorem deputy_committees_wellformed :
  forall (read_page : pystr -> option (list node)) (filepath : pystr),
    Forall (committee_wellformed urljoin base_url)
      (ParliamentScraper.parse_deputy_committees urljoin base_url read_page
         filepath).
Proof.
  intros read_page filepath.
  unfold ParliamentScraper.parse_deputy_committees.
  destruct (read_page filepath) as [doc|]; [|constructor].
  unfold ParliamentScraper.committees_of_page.
  destruct (List.find (ParliamentScraper.is_committee_div)
              (soup_find_all (lit "div") doc)) as [div|]; [|constructor].
  destruct (find (lit "p") div) as [p_tag|]; [|constructor].
  destruct (ParliamentScraper.walk_contents urljoin base_url
              (contents p_tag) []) as [cs|] eqn:E; [|constructor].
  apply (@walk_contents_wellformed (contents p_tag) [] cs); [constructor|exact E].
Qed.

End DetailPages.

Lemma scan_stops_at_the_next_heading_witness :
  SenatorsScraper.committees_of_page join_rooted
    SenatorsScraper.default_base_url
    (Examples.senator_page committee_then_heading) =
  match all_or_nothing
          (map (link_of join_rooted SenatorsScraper.default_base_url)
             (filter (is_tag (lit "a"))
                [Text SenatorsScraper.heading_label;
                 Examples.anchor (lit "/Comisie.aspx?Zi=1")
                   (lit "Comisia juridica");
                 Text (lit "Comisia juridica")])) with
  | Some committees => committees
  | None => []
  end.
Proof.
  apply (@scan_stops_at_the_next_heading join_rooted
           SenatorsScraper.default_base_url
           (Examples.senator_page committee_then_heading)
           [Text SenatorsScraper.heading_label;
            Examples.anchor (lit "/Comisie.aspx?Zi=1")
              (lit "Comisia juridica");
            Text (lit "Comisia juridica")]
           [Text (lit "Delegatii:");
            Tag (lit "a") [(lit "name", lit "sus")] [Text (lit "sus")];
            Text (lit "sus")]
           [] [Text (lit "Delegatii:")]).
  - vm_compute; reflexivity.
  - intros n [<-|[<-|[<-|[]]]]; vm_compute; reflexivity.
Defined.

(** ** The stand-alone scripts and the scrapers *)

Lemma re_search_contains (literal : pystr) (cls : N -> bool) (s g : pystr) :
  re_search literal cls s = Some g -> contains literal s = true.
Proof.
  induction s as [|c s IH]; rewrite re_search_unfold, contains_unfold;
    unfold starts_with.
  - destruct (strip_prefix literal []) as [rest|]; [reflexivity|discriminate].
  - destruct (strip_prefix literal (c :: s)) as [rest|]; [reflexivity|].
    intros E. rewrite (IH E). reflexivity.
Qed.

Section Scripts.

Variable is_decimal : N -> bool.

Lemma row_outcomes_agree (row : node) :
  rows_agree (ParliamentScraper.deputy_of_row is_decimal row)
             (ExtractDeputies.deputy_of_row is_decimal row).
Proof.
  unfold ParliamentScraper.deputy_of_row, ExtractDeputies.deputy_of_row.
  destruct (4 <=? length (find_all (lit "td") row))%nat eqn:L; [|exact I].
  apply Nat.leb_le in L.
  destruct (nth_error (find_all (lit "td") row) 1) as [c1|] eqn:E1;
    [|exact I].
  destruct (nth_error (find_all (lit "td") row) 2) as [c2|] eqn:E2;
    [|apply nth_error_None in E2; lia].
  destruct (nth_error (find_all (lit "td") row) 3) as [c3|] eqn:E3;
    [|exact I].
  destruct (find (lit "a") c1) as [link|]; [|exact I].
  unfold attr_or_empty.
  destruct (attr (lit "href") link) as [href|]; [|exact I].
  unfold ParliamentScraper.id_of_href, ExtractDeputies.id_of_href.
  destruct (re_search (lit "idm=") is_decimal href) as [i|] eqn:Ei.
  - rewrite (re_search_contains _ _ _ Ei). reflexivity.
  - destruct (contains (lit "idm=") href); exact I.
Qed.

(** X17: the stand-alone script and the scraper of the lower chamber treat
    a row alike, two cases apart.  From a row either both build a record,
    and then with the same id, name, group and URL, or neither does.  Of
    the rows that give no record, the scraper raises and the script passes
    over (a link without [href]), or the scraper passes over and the
    script raises (an [href] that holds [idm=] but no digits after it), or
    both pass over; they never raise together.  So over rows where neither
    raises, both give the same records in the same order. *)
Theorem listing_extractors_agree :
  forall rows : list node,
    Forall (fun row =>
              rows_agree (ParliamentScraper.deputy_of_row is_decimal row)
                         (ExtractDeputies.deputy_of_row is_decimal row)) rows /\
    forall ds ds',
      ParliamentScraper.deputies_of_rows is_decimal rows = Some ds ->
      ExtractDeputies.deputies_of_rows is_decimal rows = Some ds' ->
      map scraper_core ds = map script_core ds'.
Proof.
  intros rows; split.
  - apply Forall_forall. intros row _. apply row_outcomes_agree.
  - induction rows as [|row rows IH]; intros ds ds'; simpl.
    + now intros [= <-] [= <-].
    + pose proof (row_outcomes_agree row) as A.
      destruct (ParliamentScraper.deputy_of_row is_decimal row) as [| |d];
        destruct (ExtractDeputies.deputy_of_row is_decimal row) as [| |d'];
        try discriminate; try contradiction.
      * apply IH.
      * destruct (ParliamentScraper.deputies_of_rows is_decimal rows)
          as [l|]; [|discriminate].
        destruct (ExtractDeputies.deputies_of_rows is_decimal rows)
          as [l'|]; [|discriminate].
        intros [= <-] [= <-]. simpl. cbn in A. rewrite A.
        now rewrite (IH l l' eq_refl eq_refl).
Qed.

End Scripts.

Section ScriptRun.

Variable is_decimal : N -> bool.



End ScriptRun.


(** ** The detail files of different records *)




(** ** The stand-alone script of the upper chamber *)

Lemma script_cards_agree (cards : list node) :
  map ExtractSenators.row_of (ExtractSenators.senators_of_cards cards) =
  map script_columns
    (SenatorsScraper.senators_of_cards SenatorsScraper.default_base_url cards).
Proof.
  induction cards as [|card cards IH]; [reflexivity|].
  cbn [ExtractSenators.senators_of_cards SenatorsScraper.senators_of_cards].
  unfold ExtractSenators.senator_of_card, SenatorsScraper.senator_of_card.
  destruct (find (lit "a") card) as [link|]; [|exact IH].
  destruct (SenatorsScraper.id_of_href (attr_or_empty (lit "href") link))
    as [i|]; [|exact IH].
  cbn [map]. rewrite IH. reflexivity.
Qed.

(** X20: the stand-alone script of the upper chamber always writes its
    header, and after it one row for each record that the scraper, with
    its default base URL, extracts from the same listing: the same id,
    name, birth date, constituency, group and URL, in the same order. *)
Theorem script_writes_the_scraper_records :
  forall doc : list node,
    rows_of (ExtractSenators.extract_senators doc) =
    ExtractSenators.header ::
    map script_columns
      (SenatorsScraper.extract_senators_from_file
         SenatorsScraper.default_base_url doc).
Proof.
  intros doc. unfold ExtractSenators.extract_senators.
  change (rows_of (OpenCsv :: WriteRow ?h :: ?l)) with (h :: rows_of l).
  f_equal.
  rewrite <- (map_map ExtractSenators.row_of WriteRow), rows_of_write.
  apply script_cards_agree.
Qed.

(** ** The distribution of the groups *)

Section Distribution.

Import ExtractSenators.

Lemma bump_lookup (g k : pystr) (acc : list (pystr * nat)) :
  lookup g (bump k acc) =
  if PyStr.eqb k g
  then Some (match lookup g acc with Some n => n + 1 | None => 1 end)
  else lookup g acc.
Proof.
  induction acc as [|[k0 n] acc IH]; cbn [bump lookup].
  - destruct (PyStr.eqb k g); reflexivity.
  - destruct (PyStr.eqb k0 k) eqn:E0; cbn [lookup].
    + apply eqb_eq in E0. subst k0.
      destruct (PyStr.eqb k g); reflexivity.
    + rewrite IH. destruct (PyStr.eqb k0 g) eqn:E1; [|reflexivity].
      apply eqb_eq in E1. subst k0.
      destruct (PyStr.eqb k g) eqn:E2; [|reflexivity].
      apply eqb_eq in E2. subst k. now rewrite eqb_refl in E0.
Qed.

Lemma lookup_fold (g : pystr) (senators : list senator) :
  forall acc,
    lookup g (fold_left (fun groups s => bump (group s) groups) senators acc) =
    match lookup g acc, members g senators with
    | Some n, m => Some (n + m)
    | None, 0 => None
    | None, S m => Some (S m)
    end.
Proof.
  induction senators as [|s senators IH]; intros acc; cbn [fold_left].
  - unfold members; cbn. destruct (lookup g acc); [f_equal; lia|reflexivity].
  - rewrite IH, bump_lookup. unfold members. cbn [filter].
    destruct (PyStr.eqb (group s) g); cbn [length].
    + destruct (lookup g acc); f_equal; lia.
    + reflexivity.
Qed.

Lemma bump_keys_in (g k : pystr) (acc : list (pystr * nat)) :
  In g (map fst (bump k acc)) -> g = k \/ In g (map fst acc).
Proof.
  induction acc as [|[k0 n] acc IH]; cbn [bump].
  - intros [<-|[]]. now left.
  - destruct (PyStr.eqb k0 k); cbn [map fst In].
    + intros H; right; exact H.
    + intros [H|H]; [right; now left|].
      destruct (IH H) as [->|H']; [now left|right; now right].
Qed.

Lemma bump_nodup (k : pystr) (acc : list (pystr * nat)) :
  NoDup (map fst acc) -> NoDup (map fst (bump k acc)).
Proof.
  induction acc as [|[k0 n] acc IH]; cbn [bump map fst].
  - intros _. constructor; [intros []|constructor].
  - intros H. inversion H as [|x l Hx Hl]; subst.
    destruct (PyStr.eqb k0 k) eqn:E0; cbn [map fst]; [exact H|].
    constructor; [|now apply IH].
    intros Hin. apply bump_keys_in in Hin as [->|Hin].
    + now rewrite eqb_refl in E0.
    + now apply Hx.
Qed.

Lemma groups_nodup (senators : list senator) :
  forall acc,
    NoDup (map fst acc) ->
    NoDup (map fst
             (fold_left (fun groups s => bump (group s) groups) senators acc)).
Proof.
  induction senators as [|s senators IH]; intros acc H; cbn [fold_left].
  - exact H.
  - apply IH. now apply bump_nodup.
Qed.

Lemma in_lookup (g : pystr) (n : nat) (l : list (pystr * nat)) :
  NoDup (map fst l) -> (In (g, n) l <-> lookup g l = Some n).
Proof.
  induction l as [|[k m] l IH]; cbn [map fst lookup In].
  - intros _. split; [intros []|discriminate].
  - intros H. inversion H as [|x l' Hx Hl]; subst.
    destruct (PyStr.eqb k g) eqn:E.
    + apply eqb_eq in E. subst k. split.
      * intros [[= ->]|Hin]; [reflexivity|].
        elim Hx. apply in_map_iff. now exists (g, n).
      * intros [= ->]. now left.
    + rewrite <- (IH Hl). split.
      * intros [[= -> _]|Hin]; [now rewrite eqb_refl in E|exact Hin].
      * intros Hin; now right.
Qed.

Lemma bump_sum (k : pystr) (acc : list (pystr * nat)) :
  list_sum (map snd (bump k acc)) = S (list_sum (map snd acc)).
Proof.
  induction acc as [|[k0 n] acc IH]; cbn [bump]; [reflexivity|].
  destruct (PyStr.eqb k0 k); cbn [map snd]; unfold list_sum in *;
    cbn [fold_right]; [lia|].
  rewrite IH. lia.
Qed.

Lemma groups_sum (senators : list senator) :
  forall acc,
    list_sum (map snd
                (fold_left (fun groups s => bump (group s) groups)
                   senators acc)) =
    list_sum (map snd acc) + length senators.
Proof.
  induction senators as [|s senators IH]; intros acc; cbn [fold_left length].
  - lia.
  - rewrite IH, bump_sum. lia.
Qed.

Lemma insert_perm (x : pystr * nat) (l : list (pystr * nat)) :
  Permutation (insert x l) (x :: l).
Proof.
  induction l as [|y l IH]; cbn [insert]; [apply Permutation_refl|].
  destruct (item_lt y x); [|apply Permutation_refl].
  eapply Permutation_trans; [apply perm_skip, IH|apply perm_swap].
Qed.

Lemma sorted_perm (l : list (pystr * nat)) : Permutation (sorted l) l.
Proof.
  induction l as [|x l IH]; cbn [sorted]; [constructor|].
  eapply Permutation_trans; [apply insert_perm|now apply perm_skip].
Qed.

Lemma perm_sum (l l' : list nat) :
  Permutation l l' -> list_sum l = list_sum l'.
Proof. unfold list_sum. induction 1; cbn [fold_right]; lia. Qed.

Lemma str_lt_asym (s t : pystr) : str_lt s t = true -> str_lt t s = false.
Proof.
  revert t; induction s as [|c s IH]; intros [|d t]; cbn [str_lt];
    try reflexivity; try discriminate.
  intros H. apply orb_true_iff in H as [H|H].
  - apply N.ltb_lt in H.
    apply orb_false_iff; split; [apply N.ltb_ge; lia|].
    apply andb_false_iff; left. apply N.eqb_neq. lia.
  - apply andb_true_iff in H as [E H]. apply N.eqb_eq in E. subst d.
    rewrite N.ltb_irrefl, N.eqb_refl. cbn [orb andb]. now apply IH.
Qed.

Lemma str_lt_irrefl (s : pystr) : str_lt s s = false.
Proof.
  destruct (str_lt s s) eqn:E; [|reflexivity].
  pose proof (str_lt_asym _ _ E). congruence.
Qed.

Lemma str_lt_total (s t : pystr) :
  str_lt s t = true \/ s = t \/ str_lt t s = true.
Proof.
  revert t; induction s as [|c s IH]; intros [|d t]; cbn [str_lt]; auto.
  destruct (N.lt_trichotomy c d) as [H|[H|H]].
  - left. apply orb_true_iff; left. now apply N.ltb_lt.
  - subst d. rewrite N.ltb_irrefl, N.eqb_refl. cbn [orb andb].
    destruct (IH t) as [H|[->|H]]; auto.
  - right; right. apply orb_true_iff; left. now apply N.ltb_lt.
Qed.

Lemma item_lt_asym (a b : pystr * nat) :
  item_lt a b = true -> item_lt b a = false.
Proof.
  unfold item_lt. intros H. apply orb_true_iff in H as [H|H].
  - rewrite (str_lt_asym _ _ H). cbn [orb].
    destruct (PyStr.eqb (fst b) (fst a)) eqn:E; [|reflexivity].
    apply eqb_eq in E. rewrite E, str_lt_irrefl in H. discriminate.
  - apply andb_true_iff in H as [E H]. apply eqb_eq in E. rewrite E.
    rewrite str_lt_irrefl, eqb_refl. cbn [orb andb].
    apply Nat.ltb_lt in H. apply Nat.ltb_ge. lia.
Qed.

Lemma insert_sorted (x : pystr * nat) (l : list (pystr * nat)) :
  Sorted (fun a b => item_lt b a = false) l ->
  Sorted (fun a b => item_lt b a = false) (insert x l).
Proof.
  induction l as [|y l IH]; cbn [insert]; intros H.
  - repeat constructor.
  - apply Sorted_inv in H as [Hl Hy].
    destruct (item_lt y x) eqn:E.
    + constructor; [now apply IH|].
      destruct l as [|z l]; cbn [insert].
      * constructor. now apply item_lt_asym.
      * destruct (item_lt z x); constructor.
        -- now inversion Hy.
        -- now apply item_lt_asym.
    + constructor; [now constructor|]. constructor. exact E.
Qed.

Lemma sorted_sorted (l : list (pystr * nat)) :
  Sorted (fun a b => item_lt b a = false) (sorted l).
Proof.
  induction l as [|x l IH]; cbn [sorted]; [constructor|].
  now apply insert_sorted.
Qed.

Lemma strictly_by_key (l : list (pystr * nat)) :
  NoDup (map fst l) ->
  Sorted (fun a b => item_lt b a = false) l ->
  Sorted (fun a b => str_lt (fst a) (fst b) = true) l.
Proof.
  induction l as [|a l IH]; intros Hn Hs; [constructor|].
  cbn [map] in Hn. inversion Hn as [|x l' Hx Hl]; subst.
  apply Sorted_inv in Hs as [Hs Hh].
  constructor; [now apply IH|].
  destruct l as [|b l]; constructor.
  inversion Hh as [|b' l' Hba]; subst.
  unfold item_lt in Hba. apply orb_false_iff in Hba as [Hba _].
  destruct (str_lt_total (fst a) (fst b)) as [H|[H|H]].
  - exact H.
  - elim Hx. left. now symmetry.
  - congruence.
Qed.

(** X21: the distribution that the stand-alone script of the upper
    chamber prints has one line for each group that occurs among the
    records and no other line; the count of a line is the number of
    records of that group, so the counts add up to the number of records;
    and the lines stand in strictly ascending order of the group. *)
Theorem distribution_counts_members :
  forall senators : list senator,
    (forall (g : pystr) (n : nat),
        In (g, n) (distribution senators) <->
        n = members g senators /\ n <> 0) /\
    list_sum (map snd (distribution senators)) = length senators /\
    Sorted (fun a b => str_lt (fst a) (fst b) = true)
      (distribution senators).
Proof.
  intros senators. unfold distribution.
  pose proof (sorted_perm (groups_of senators)) as P.
  assert (N0 : NoDup (map fst (groups_of senators)))
    by (apply groups_nodup; constructor).
  split; [|split].
  - intros g n. transitivity (In (g, n) (groups_of senators)).
    + split; apply Permutation_in; [exact P|now apply Permutation_sym].
    + rewrite (@in_lookup g n _ N0). unfold groups_of. rewrite lookup_fold.
      cbn [lookup]. destruct (members g senators) as [|m]; split.
      * discriminate.
      * intros [-> H]. now elim H.
      * intros [= <-]. split; [reflexivity|discriminate].
      * now intros [-> _].
  - rewrite (perm_sum (Permutation_map snd P)).
    unfold groups_of. now rewrite groups_sum.
  - apply strictly_by_key; [|apply sorted_sorted].
    apply (Permutation_NoDup (l := map fst (groups_of senators)));
      [|exact N0].
    apply Permutation_map. now apply Permutation_sym.
Qed.

End Distribution.

(** ** Runs and rows at work *)

Lemma rows_belong_to_records_witness :
  (exists s,
      In s (SenatorsScraper.extract_senators_from_file
              SenatorsScraper.default_base_url [Examples.card_maria]) /\
      firstn 6 (nth 1 (rows_of run_maria) []) = Spec.senator_fields s) /\
  (exists d,
      In d (ParliamentScraper.extract_deputies_from_file ascii_digit
              (Examples.listing [Examples.row_ion_pop])) /\
      firstn 3 (nth 2 (rows_of run_ion_pop) []) =
      [ParliamentScraper.name d; ParliamentScraper.url d;
       ParliamentScraper.id d]).
Proof.
  split.
  - apply (proj1 (@rows_belong_to_records ascii_digit join_rooted
                    SenatorsScraper.default_base_url true Examples.all_exist
                    Examples.nothing_loads
                    (Examples.always
                       (Examples.senator_page
                          Examples.committees_then_contact))
                    [Examples.card_maria]
                    (nth 1 (rows_of run_maria) []))).
    vm_compute. left; reflexivity.
  - apply (proj2 (@rows_belong_to_records ascii_digit join_rooted
                    ParliamentScraper.default_base_url true Examples.all_exist
                    Examples.nothing_loads
                    (Examples.always
                       (Examples.deputy_page Examples.two_committees))
                    (Examples.listing [Examples.row_ion_pop])
                    (nth 2 (rows_of run_ion_pop) []))).
    vm_compute. right; left; reflexivity.
Defined.

Lemma listing_extractors_agree_witness :
  map scraper_core
    (records_or_none
       (ParliamentScraper.deputies_of_rows ascii_digit
          [Examples.row_ion_pop; Examples.row_ana_dinu])) =
  map script_core
    (records_or_none
       (ExtractDeputies.deputies_of_rows ascii_digit
          [Examples.row_ion_pop; Examples.row_ana_dinu])).
Proof.
  apply (proj2 (listing_extractors_agree ascii_digit
                  [Examples.row_ion_pop; Examples.row_ana_dinu]));
    vm_compute; reflexivity.
Defined.
